(** * Bootstrap layer of the gym-management backend (five revisions of server.js)

  The repository holds five near-duplicate revisions of one Express
  bootstrap file.  They are named here after the order in which they
  appear in the sources:

  - [RevA]  src/server.js, lines 1-141      (isConnected flag, no file system)
  - [RevB]  src/server.js, lines 142-357    (UPLOAD_DIR override, guarded forEach)
  - [RevC]  src/server.js, lines 358-560    (isProduction, createDirectories)
  - [RevD]  src/unnamed/part_000, 1-166     (readyState guard)
  - [RevE]  src/unnamed/part_000, 167-377   (strict VERCEL test, createDirectories)

  Express, mongoose, cors, path, os and fs are libraries: the parts of
  their documented behaviour the bootstrap relies on are modelled in the
  modules [JS], [Path], [Fs], [Express] and [Mongoose]. *)

From stdpp Require Import gmap strings list.
From Stdlib Require Import Ascii ZArith Lia.

Local Open Scope string_scope.

(** ** JavaScript values the bootstrap tests for truthiness *)

Module JS.

(** [process.env] maps names to strings ([gmap string string]); a missing
    name reads [undefined]. *)

(** Truthiness of [process.env.X]: [undefined] and the empty string are falsy. *)
Definition truthy (v : option string) : bool :=
  match v with
  | Some s => negb (String.eqb s "")
  | None => false
  end.

(** [a || b] on an optional string and a string default. *)
Definition or_default (v : option string) (d : string) : string :=
  match v with
  | Some s => if String.eqb s "" then d else s
  | None => d
  end.

(** [process.env.X === lit] *)
Definition strict_eq (v : option string) (lit : string) : bool :=
  match v with
  | Some s => String.eqb s lit
  | None => false
  end.

End JS.

(** ** POSIX [path] module of Node: join, resolve *)

Module Path.

Definition slash : ascii := "/"%char.

Definition isAbsolute (p : string) : bool :=
  match p with
  | String c _ => Ascii.eqb c slash
  | EmptyString => false
  end.

(** Components between separators; [split "/a//b"] is [""; "a"; ""; "b"]. *)
Fixpoint split (p : string) : list string :=
  match p with
  | EmptyString => [EmptyString]
  | String c rest =>
      if Ascii.eqb c slash then EmptyString :: split rest
      else match split rest with
           | s :: ss => String c s :: ss
           | [] => [String c EmptyString]
           end
  end.

Definition plain (s : string) : bool :=
  negb (String.eqb s "" || String.eqb s "." || String.eqb s "..").

(** Node's [normalizeString]: [acc] is the stack of kept components,
    innermost first; [allowAbove] is set for relative paths. *)
Fixpoint normSegs (allowAbove : bool) (acc : list string) (segs : list string)
  : list string :=
  match segs with
  | [] => rev acc
  | s :: rest =>
      if String.eqb s "" || String.eqb s "." then normSegs allowAbove acc rest
      else if String.eqb s ".." then
        match acc with
        | top :: acc' =>
            if String.eqb top ".." then normSegs allowAbove (s :: acc) rest
            else normSegs allowAbove acc' rest
        | [] =>
            if allowAbove then normSegs allowAbove [s] rest
            else normSegs allowAbove [] rest
        end
      else normSegs allowAbove (s :: acc) rest
  end.

Fixpoint joinWith (segs : list string) : string :=
  match segs with
  | [] => ""
  | [s] => s
  | s :: rest => s +:+ "/" +:+ joinWith rest
  end.

Definition endsWithSlash (p : string) : bool :=
  match rev (split p) with
  | last :: _ :: _ => String.eqb last ""
  | _ => false
  end.

(** Normalised components of a path. *)
Definition segments (p : string) : list string :=
  normSegs (negb (isAbsolute p)) [] (split p).

Definition render (abs : bool) (segs : list string) : string :=
  if abs then "/" +:+ joinWith segs
  else match segs with [] => "." | _ => joinWith segs end.

(** [path.normalize]: a trailing separator is kept. *)
Definition normalize (p : string) : string :=
  if String.eqb p "" then "."
  else
    let body := render (isAbsolute p) (segments p) in
    match segments p with
    | [] => if isAbsolute p then "/" else if endsWithSlash p then "./" else "."
    | _ => if endsWithSlash p then body +:+ "/" else body
    end.

(** [path.join(a, b)]: the non-empty arguments joined by a separator,
    then normalised. *)
Definition join (a b : string) : string :=
  if String.eqb a "" then normalize b
  else if String.eqb b "" then normalize a
  else normalize (a +:+ "/" +:+ b).

(** [path.resolve(p)] with the working directory [cwd], which is absolute:
    the result is absolute, normalised, without trailing separator. *)
Definition resolve (cwd p : string) : string :=
  if isAbsolute p then render true (normSegs false [] (split p))
  else render true (normSegs false [] (split cwd ++ split p)).

(** The path and every directory above it, as [mkdir -p] creates them. *)
Fixpoint prefixes (abs : bool) (acc : list string) (segs : list string)
  : list string :=
  match segs with
  | [] => []
  | s :: rest => render abs (acc ++ [s]) :: prefixes abs (acc ++ [s]) rest
  end.

Definition ancestors (p : string) : list string :=
  prefixes (isAbsolute p) [] (segments p).

End Path.

(** ** The process: configuration, mutable state, exceptions *)

(** What a revision reads from its host when the module is loaded. *)
Record host := mkHost {
  env : gmap string string;         (* process.env, after dotenv.config() *)
  dirname : string;      (* __dirname, absolute *)
  cwd : string;          (* process.cwd(), absolute *)
  tmpdir : string        (* os.tmpdir() *)
}.

(** A thrown value: an Error object with a message and an optional
    numeric [status] (the collaborator contract of the route modules). *)
Record error := mkError {
  message : string;
  status : option Z
}.

Inductive level := Log | Warn | Err.

(** One console line; the pictographs that open the source's messages are
    left out of the texts. *)
Record entry := mkEntry { lvl : level; text : string }.

(** Mutable state shared by everything in one process. *)
Record world := mkWorld {
  present : gset string;            (* directories that exist *)
  mkdirs : list string;             (* arguments of the fs.mkdirSync calls made *)
  console : list entry;
  isConnected : bool;               (* the module-level flag of RevA *)
  readyState : Z;                   (* mongoose.connections[0].readyState *)
  connects : list (option string);  (* arguments of the mongoose.connect calls made *)
  isoNow : string                   (* what new Date().toISOString() returns *)
}.

Definition emit (l : level) (t : string) (w : world) : world :=
  mkWorld (present w) (mkdirs w) (console w ++ [mkEntry l t])
          (isConnected w) (readyState w) (connects w) (isoNow w).

Definition set_isConnected (b : bool) (w : world) : world :=
  mkWorld (present w) (mkdirs w) (console w) b (readyState w) (connects w) (isoNow w).

Definition set_readyState (z : Z) (w : world) : world :=
  mkWorld (present w) (mkdirs w) (console w) (isConnected w) z (connects w) (isoNow w).

Definition push_connect (uri : option string) (w : world) : world :=
  mkWorld (present w) (mkdirs w) (console w) (isConnected w) (readyState w)
          (connects w ++ [uri]) (isoNow w).

(** A fresh process: nothing logged, nothing connected. *)
Definition fresh (dirs : gset string) (now : string) : world :=
  mkWorld dirs [] [] false 0 [] now.

(** Result of running synchronous code: a value, or a thrown error. *)
Inductive res (A : Type) :=
| Ret (a : A) (w : world)
| Throw (e : error) (w : world).
Arguments Ret {A} a w.
Arguments Throw {A} e w.

Definition M (A : Type) := world -> res A.

Definition ret {A} (a : A) : M A := fun w => Ret a w.

Definition throw {A} (e : error) : M A := fun w => Throw e w.

Definition bind {A B} (m : M A) (k : A -> M B) : M B :=
  fun w => match m w with
           | Ret a w' => k a w'
           | Throw e w' => Throw e w'
           end.

(** [try { m } catch (e) { h e }] *)
Definition try_catch {A} (m : M A) (h : error -> M A) : M A :=
  fun w => match m w with
           | Ret a w' => Ret a w'
           | Throw e w' => h e w'
           end.

Definition tell (l : level) (t : string) : M unit :=
  fun w => Ret tt (emit l t w).

(** [xs.forEach(f)]: a throwing callback ends the iteration. *)
Fixpoint forEach {A} (xs : list A) (f : A -> M unit) : M unit :=
  match xs with
  | [] => ret tt
  | x :: rest => bind (f x) (fun _ => forEach rest f)
  end.

Definition world_of {A} (r : res A) : world :=
  match r with Ret _ w => w | Throw _ w => w end.

Definition threw {A} (r : res A) : bool :=
  match r with Ret _ _ => false | Throw _ _ => true end.

(** ** [fs]: existsSync and mkdirSync *)

Module Fs.

(** Why the host refuses to create a directory, if it does: the message of
    the error [mkdirSync] throws (EROFS, EACCES, ...). *)
Definition refusal := string -> option string.

Definition existsSync (p : string) : M bool :=
  fun w => Ret (bool_decide (p ∈ present w)) w.

Definition created (p : string) (w : world) : world :=
  mkWorld (present w ∪ list_to_set (Path.ancestors p)) (mkdirs w ++ [p])
          (console w) (isConnected w) (readyState w) (connects w) (isoNow w).

Definition attempted (p : string) (w : world) : world :=
  mkWorld (present w) (mkdirs w ++ [p])
          (console w) (isConnected w) (readyState w) (connects w) (isoNow w).

(** [fs.mkdirSync(p, { recursive: true })] *)
Definition mkdirSync (deny : refusal) (p : string) : M unit :=
  fun w => match deny p with
           | Some msg => Throw (mkError msg None) (attempted p w)
           | None => Ret tt (created p w)
           end.

End Fs.

(** ** [mongoose]: the default connection *)

Module Mongoose.

(** Values of [connection.readyState]. *)
Definition disconnected : Z := 0.
Definition connected : Z := 1.
Definition connecting : Z := 2.
Definition disconnecting : Z := 3.

(** The synchronous part of [mongoose.connect(uri)] on a disconnected
    default connection, for a connection string the driver accepts: the
    call is made and the connection enters [connecting].  (For a missing
    or malformed URI the library rejects without leaving [disconnected];
    nothing below reads the state after such a call.) *)
Definition connectCalled (uri : option string) (w : world) : world :=
  set_readyState connecting (push_connect uri w).

(** The attempt settles: [None] is success, [Some e] the rejection. *)
Definition settled (outcome : option error) (w : world) : world :=
  match outcome with
  | None => set_readyState connected w
  | Some _ => set_readyState disconnected w
  end.

End Mongoose.

(** ** Async functions that await one [mongoose.connect] *)

(** An async function either completes without suspending, or calls
    [mongoose.connect uri] and suspends on it: [Pending uri w k] holds the
    world [w] left by the synchronous prefix and the code [k] that runs,
    in the world of that later moment, once the attempt has settled. *)
Inductive async (A : Type) :=
| Settled (r : res A)
| Pending (uri : option string) (w : world) (k : option error -> M A).
Arguments Settled {A} r.
Arguments Pending {A} uri w k.

(** What the caller of an async function observes. *)
Inductive verdict (A : Type) :=
| Fulfilled (a : A)
| Rejected (e : error).
Arguments Fulfilled {A} a.
Arguments Rejected {A} e.

Module Loop.

(** The event loop of one process: the shared world, the calls suspended
    on a connection attempt, and the verdicts of the calls that returned. *)
Record sys (A : Type) := mkSys {
  sw : world;
  waiting : list (nat * (option error -> M A));
  returned : list (nat * verdict A)
}.
Arguments mkSys {A} sw waiting returned.
Arguments sw {A} s.
Arguments waiting {A} s.
Arguments returned {A} s.

Definition start {A} (w : world) : sys A := mkSys w [] [].

Definition finish {A} (id : nat) (r : res A) (q : list (nat * (option error -> M A)))
  (d : list (nat * verdict A)) : sys A :=
  match r with
  | Ret a w => mkSys w q (d ++ [(id, Fulfilled a)])
  | Throw e w => mkSys w q (d ++ [(id, Rejected e)])
  end.

(** Caller [id] invokes [f]; it runs up to its first suspension. *)
Definition call {A} (f : world -> async A) (id : nat) (s : sys A) : sys A :=
  match f (sw s) with
  | Settled r => finish id r (waiting s) (returned s)
  | Pending _ w k => mkSys w (waiting s ++ [(id, k)]) (returned s)
  end.

(** [n] callers, numbered from [from], invoke [f] before any connection
    attempt has settled. *)
Fixpoint burst {A} (f : world -> async A) (from n : nat) (s : sys A) : sys A :=
  match n with
  | O => s
  | S n' => burst f (S from) n' (call f from s)
  end.

End Loop.

(** ** Express: layers, matching, the walk over the stack *)

Module Express.

Record request := mkRequest { method : string; url : string }.

#[local] Set Warnings "-register-all".

Inductive json :=
| JNull
| JBool (b : bool)
| JNum (z : Z)
| JStr (s : string)
| JArr (xs : list json)
| JObj (fields : list (string * json)).

(** A response body: what [res.json] was given, or the HTML page Express's
    final handler writes when no layer answered. *)
Inductive payload :=
| Json (j : json)
| FinalHandlerPage.

Record response := mkResponse { statusCode : Z; body : payload }.

(** What a layer's function does with a request: answer it, call
    [next()], or throw / call [next(err)]. *)
Inductive outcome :=
| Respond (r : response)
| Next
| Raise (e : error).

Definition handler := request -> world -> world * outcome.

Definition errorHandler := error -> request -> world -> world * outcome.

(** Express tells error-handling middleware from the rest by the number of
    declared parameters: four is an error handler, fewer is called as
    [fn(req, res, next)]. *)
Inductive callee :=
| ReqFn (f : handler)
| ErrFn (f : errorHandler).

Inductive matcher :=
| Always                    (* app.use(fn) *)
| Use (prefix : string)     (* app.use(prefix, fn) *)
| Get (path : string).      (* app.get(path, fn) *)

Record layer := mkLayer { name : string; route : matcher; fn : callee }.

Definition lowerChar (c : ascii) : ascii :=
  let n := nat_of_ascii c in
  if (65 <=? n)%nat && (n <=? 90)%nat then ascii_of_nat (n + 32) else c.

Fixpoint lower (s : string) : string :=
  match s with
  | EmptyString => EmptyString
  | String c rest => String (lowerChar c) (lower rest)
  end.

(** The part of [req.url] before the query string, for a request target
    in origin form without a fragment. *)
Fixpoint pathname (u : string) : string :=
  match u with
  | EmptyString => EmptyString
  | String c rest => if Ascii.eqb c "?"%char then EmptyString else String c (pathname rest)
  end.

Fixpoint stripPrefix (pre s : string) : option string :=
  match pre, s with
  | EmptyString, _ => Some s
  | String a p, String b t => if Ascii.eqb a b then stripPrefix p t else None
  | String _ _, EmptyString => None
  end.

(** [app.use(prefix, ...)]: the prefix, case-insensitively, ending at the
    end of the path or at a separator. *)
Definition underPrefix (pre path : string) : bool :=
  match stripPrefix pre (lower path) with
  | Some EmptyString => true
  | Some (String c _) => Ascii.eqb c Path.slash
  | None => false
  end.

(** [app.get(path, ...)]: the whole path, case-insensitively, with an
    optional trailing separator. *)
Definition exactly (p path : string) : bool :=
  String.eqb (lower path) p
  || (negb (String.eqb p "/") && String.eqb (lower path) (p +:+ "/")).

Definition matches (m : matcher) (req : request) : bool :=
  match m with
  | Always => true
  | Use pre => underPrefix pre (pathname (url req))
  | Get p =>
      (String.eqb (method req) "GET" || String.eqb (method req) "HEAD")
      && exactly p (pathname (url req))
  end.

Record result := mkResult {
  final : world;
  trace : list string;     (* names of the layers whose function ran, in order *)
  reply : response
}.

(** Status the final handler gives an unhandled error: [err.status] when
    it is a 4xx or 5xx code, else 500. *)
Definition finalStatus (e : error) : Z :=
  match status e with
  | Some s => if (400 <=? s)%Z && (s <? 600)%Z then s else 500%Z
  | None => 500%Z
  end.

Definition finalhandler (err : option error) (w : world) (tr : list string) : result :=
  match err with
  | None => mkResult w tr (mkResponse 404 FinalHandlerPage)
  | Some e => mkResult w tr (mkResponse (finalStatus e) FinalHandlerPage)
  end.

(** The walk over the stack in registration order.  Without a pending
    error the matching request functions run; with one, only the matching
    error handlers. *)
Fixpoint handle (ls : list layer) (err : option error) (req : request)
  (w : world) (tr : list string) : result :=
  match ls with
  | [] => finalhandler err w tr
  | l :: rest =>
      if matches (route l) req then
        match err, fn l with
        | None, ReqFn f =>
            match f req w with
            | (w', Respond r) => mkResult w' (tr ++ [name l]) r
            | (w', Next) => handle rest None req w' (tr ++ [name l])
            | (w', Raise e) => handle rest (Some e) req w' (tr ++ [name l])
            end
        | Some e, ErrFn f =>
            match f e req w with
            | (w', Respond r) => mkResult w' (tr ++ [name l]) r
            | (w', Next) => handle rest None req w' (tr ++ [name l])
            | (w', Raise e') => handle rest (Some e') req w' (tr ++ [name l])
            end
        | _, _ => handle rest err req w tr
        end
      else handle rest err req w tr
  end.

Definition serve (app : list layer) (req : request) (w : world) : result :=
  handle app None req w [].

(** Position of the first layer of a table that matches the request. *)
Fixpoint firstMatch (ls : list layer) (req : request) : option nat :=
  match ls with
  | [] => None
  | l :: rest =>
      if matches (route l) req then Some O
      else option_map S (firstMatch rest req)
  end.

(** Options object given to [cors(...)]. *)
Record corsOptions := mkCors {
  origin : list string;
  credentials : bool;
  methods : list string;
  allowedHeaders : list string
}.

Definition field (k : string) (j : json) : option json :=
  match j with
  | JObj fs => snd <$> List.find (fun kv => String.eqb (fst kv) k) fs
  | _ => None
  end.

Definition keys (j : json) : list string :=
  match j with
  | JObj fs => fst <$> fs
  | _ => []
  end.

End Express.

(** The modules the bootstrap imports and mounts; their code is not part
    of it. *)
Record deps := mkDeps {
  cors : Express.corsOptions -> Express.handler;
  jsonParser : Express.handler;          (* express.json({ limit: '50mb' }) *)
  urlencodedParser : Express.handler;    (* express.urlencoded({ extended: true, limit: '50mb' }) *)
  serveStatic : string -> Express.handler;  (* express.static(root) *)
  whatsappRoutes : Express.handler;
  customerRoutes : Express.handler;
  attendanceRoutes : Express.handler;
  reportRoutes : Express.handler;
  mongo : option string -> option error  (* how the server answers a connection to this URI *)
}.

(** [await f()] with no other task interleaved. *)
Definition awaitNow {A} (db : option string -> option error) (a : async A) : res A :=
  match a with
  | Settled r => r
  | Pending uri w k => k (db uri) (Mongoose.settled (db uri) w)
  end.

(** ** Pieces whose text is the same in several revisions *)

Definition requiredDirs : list string := ["uploads"; "whatsapp-auth"; "logs"].

Module Common.

Import Express.

(** The request logger (all revisions). *)
Definition logger : handler :=
  fun req w => (emit Log (method req +:+ " " +:+ url req) w, Next).

(** The seven mounts, canonical prefixes first, legacy [/api] mounts last
    (all revisions register them in this order). *)
Definition canonicalMounts (d : deps) : list layer :=
  [ mkLayer "/api/whatsapp whatsappRoutes" (Use "/api/whatsapp") (ReqFn (whatsappRoutes d));
    mkLayer "/api/customers customerRoutes" (Use "/api/customers") (ReqFn (customerRoutes d));
    mkLayer "/api/attendance attendanceRoutes" (Use "/api/attendance") (ReqFn (attendanceRoutes d));
    mkLayer "/api/reports reportRoutes" (Use "/api/reports") (ReqFn (reportRoutes d)) ].

Definition legacyMounts (d : deps) : list layer :=
  [ mkLayer "/api customerRoutes" (Use "/api") (ReqFn (customerRoutes d));
    mkLayer "/api attendanceRoutes" (Use "/api") (ReqFn (attendanceRoutes d));
    mkLayer "/api reportRoutes" (Use "/api") (ReqFn (reportRoutes d)) ].

Definition routeTable (d : deps) : list layer :=
  canonicalMounts d ++ legacyMounts d.

Definition routesObject : json :=
  JObj [ ("whatsapp", JStr "/api/whatsapp");
         ("customers", JStr "/api/customers");
         ("attendance", JStr "/api/attendance");
         ("reports", JStr "/api/reports") ].

(** GET /test-whatsapp (RevB to RevE). *)
Definition testWhatsapp : handler :=
  fun req w =>
    (w, Respond (mkResponse 200 (Json (JObj
      [ ("message", JStr "WhatsApp route is working");
        ("availableEndpoints", JArr
          [ JStr "GET /api/whatsapp/status";
            JStr "POST /api/whatsapp/init-whatsapp-web";
            JStr "POST /api/whatsapp/request-whatsapp-verification";
            JStr "POST /api/whatsapp/verify-whatsapp-code";
            JStr "POST /api/whatsapp/send-message";
            JStr "POST /api/whatsapp/disconnect" ]) ])))).

(** The not-found handler of RevB, RevC and RevD. *)
Definition notFound : handler :=
  fun req w =>
    (emit Log ("404 - Route not found: " +:+ method req +:+ " " +:+ url req) w,
     Respond (mkResponse 404 (Json (JObj
       [ ("success", JBool false);
         ("message", JStr ("Route " +:+ method req +:+ " " +:+ url req +:+ " not found"));
         ("availableRoutes", JArr
           [ JStr "/health";
             JStr "/test-whatsapp";
             JStr "/api/whatsapp/status";
             JStr "/api/customers";
             JStr "/api/attendance";
             JStr "/api/reports" ]) ])))).

(** [error.status || 500] *)
Definition statusOr500 (e : error) : Z :=
  match status e with
  | Some s => if (s =? 0)%Z then 500%Z else s
  | None => 500%Z
  end.

(** [error.message || 'Internal server error'] *)
Definition messageOrDefault (e : error) : string :=
  if String.eqb (message e) "" then "Internal server error" else message e.

(** The body of the global error handler (all revisions), for a status
    that [res.status] takes and that carries a body. *)
Definition globalError : errorHandler :=
  fun e req w =>
    (emit Err ("Global error: " +:+ message e) w,
     Respond (mkResponse (statusOr500 e) (Json (JObj
       [ ("success", JBool false);
         ("message", JStr (messageOrDefault e));
         ("timestamp", JStr (isoNow w)) ])))).

(** The answer of the readiness gate when the connection failed. *)
Definition gateFailure : response :=
  mkResponse 500 (Json (JObj
    [ ("success", JBool false);
      ("message", JStr "Database connection failed") ])).

Definition defaultUri : string := "mongodb://localhost:27017/gym_management".

(** What follows [await mongoose.connect(...)] in [connectDatabase] of
    RevB, RevC and RevE: log and return [true], or log and rethrow. *)
Definition afterConnect (outcome : option error) : M bool :=
  fun w =>
    match outcome with
    | None => Ret true (emit Log "MongoDB Connected" w)
    | Some e => Throw e (emit Err ("MongoDB Connection Error: " +:+ message e) w)
    end.

(** [connectDatabase] of RevB, RevC and RevE: the URI falls back to a
    local default. *)
Definition connectDatabaseWithDefault (h : host) : world -> async bool :=
  fun w =>
    Pending (Some (JS.or_default (env h !! "MONGO_URI") defaultUri))
      (Mongoose.connectCalled
         (Some (JS.or_default (env h !! "MONGO_URI") defaultUri)) w)
      afterConnect.

End Common.

(** ** RevA: src/server.js, lines 1-141 *)

Module RevA.

Import Express.

Definition corsOptions (h : host) : corsOptions :=
  mkCors [ "http://localhost:3000";
           "http://localhost:5173";
           "http://localhost:5174";
           "http://127.0.0.1:3000";
           "http://127.0.0.1:5173" ]
         true
         ["GET"; "POST"; "PUT"; "DELETE"; "OPTIONS"]
         ["Content-Type"; "Authorization"].

Definition root : handler :=
  fun req w =>
    (w, Respond (mkResponse 200 (Json (JObj
      [ ("status", JStr "OK");
        ("message", JStr "Welcome to the backend API!");
        ("availableRoutes", JArr
          [JStr "/health"; JStr "/api/customers"; JStr "/api/whatsapp"]) ])))).

Definition health : handler :=
  fun req w =>
    (w, Respond (mkResponse 200 (Json (JObj
      [ ("status", JStr "OK");
        ("message", JStr "Server is running");
        ("timestamp", JStr (isoNow w)) ])))).

Definition notFound : handler :=
  fun req w =>
    (w, Respond (mkResponse 404 (Json (JObj
      [ ("success", JBool false);
        ("message", JStr ("Route " +:+ method req +:+ " " +:+ url req +:+ " not found")) ])))).

(** [app.use((error, req, res) => ...)] declares three parameters, so
    Express calls it as [fn(req, res, next)]: [error] is the request,
    [req] the response and [res] the [next] function, which has no
    [status] method. *)
Definition globalErrorMisdeclared : handler :=
  fun req w =>
    (emit Err ("Global error: " +:+ method req +:+ " " +:+ url req) w,
     Raise (mkError "res.status is not a function" None)).

Definition missingUri : error :=
  mkError "MONGO_URI environment variable is not set." None.

(** What follows [await mongoose.connect(mongoUri)]: set the flag and
    log, or log and rethrow. *)
Definition afterConnect (outcome : option error) : M unit :=
  fun w =>
    match outcome with
    | None => Ret tt (emit Log "MongoDB Connected" (set_isConnected true w))
    | Some e => Throw e (emit Err ("MongoDB Connection Error: " +:+ message e) w)
    end.

Definition connectToDatabase (h : host) : world -> async unit :=
  fun w =>
    if isConnected w then Settled (Ret tt w)
    else if JS.truthy (env h !! "MONGO_URI") then
      Pending (env h !! "MONGO_URI")
        (Mongoose.connectCalled (env h !! "MONGO_URI") w)
        afterConnect
    else
      Settled (Throw missingUri
                 (emit Err ("MongoDB Connection Error: " +:+ message missingUri) w)).

(** The gate as it handles one request with no other request in flight:
    [awaitNow] runs the awaited call to its end before anything else. *)
Definition dbGate (h : host) (d : deps) : handler :=
  fun req w =>
    match awaitNow (mongo d) (connectToDatabase h w) with
    | Ret _ w' => (w', Next)
    | Throw _ w' => (w', Respond Common.gateFailure)
    end.

Definition app (h : host) (d : deps) : list layer :=
  [ mkLayer "cors" Always (ReqFn (cors d (corsOptions h)));
    mkLayer "express.json" Always (ReqFn (jsonParser d));
    mkLayer "express.urlencoded" Always (ReqFn (urlencodedParser d));
    mkLayer "logger" Always (ReqFn Common.logger);
    mkLayer "GET /" (Get "/") (ReqFn root) ]
  ++ Common.routeTable d ++
  [ mkLayer "GET /health" (Get "/health") (ReqFn health);
    mkLayer "notFound" Always (ReqFn notFound);
    mkLayer "globalError" Always (ReqFn globalErrorMisdeclared);
    mkLayer "dbGate" Always (ReqFn (dbGate h d)) ].

End RevA.

(** ** RevB: src/server.js, lines 142-357 *)

Module RevB.

Import Express.

Definition isServerless (h : host) : bool := JS.truthy (env h !! "VERCEL").

Definition uploadBaseEnv (h : host) : option string := env h !! "UPLOAD_DIR".

Definition defaultLocalUploads (h : host) : string := Path.join (dirname h) "uploads".

Definition uploadBase (h : host) : string :=
  if JS.truthy (uploadBaseEnv h)
  then Path.resolve (cwd h) (default "" (uploadBaseEnv h))
  else if isServerless h then Path.join (tmpdir h) "gym_uploads"
       else defaultLocalUploads h.

Definition corsOptions (h : host) : corsOptions :=
  mkCors [ "http://localhost:3000";
           "http://localhost:5173";
           "http://localhost:5174";
           "http://127.0.0.1:3000";
           "http://127.0.0.1:5173" ]
         true
         ["GET"; "POST"; "PUT"; "DELETE"; "OPTIONS"]
         ["Content-Type"; "Authorization"].

Definition dirPath (h : host) (dir : string) : string :=
  if isServerless h then Path.join (uploadBase h) dir
  else Path.join (dirname h) dir.

(** The callback of [requiredDirs.forEach], with its own try/catch. *)
Definition ensureDir (h : host) (deny : Fs.refusal) (dir : string) : M unit :=
  try_catch
    (bind (Fs.existsSync (dirPath h dir)) (fun there =>
       if negb there then
         bind (Fs.mkdirSync deny (dirPath h dir)) (fun _ =>
           tell Log ("Created directory: " +:+ dirPath h dir))
       else tell Log ("Directory exists: " +:+ dirPath h dir)))
    (fun err =>
       tell Warn ("Could not create directory " +:+ dirPath h dir
                  +:+ ". Reason: " +:+ message err)).

Definition ensureDirs (h : host) (deny : Fs.refusal) : M unit :=
  forEach requiredDirs (ensureDir h deny).

Definition staticUploadsPath (h : host) : string :=
  if isServerless h then Path.join (uploadBase h) "uploads"
  else Path.join (dirname h) "uploads".

Definition health (h : host) : handler :=
  fun req w =>
    (w, Respond (mkResponse 200 (Json (JObj
      [ ("status", JStr "OK");
        ("message", JStr "Server is running");
        ("timestamp", JStr (isoNow w));
        ("env", JObj [ ("isServerless", JBool (isServerless h));
                       ("uploadBase", JStr (uploadBase h)) ]);
        ("routes", Common.routesObject) ])))).

Definition connectDatabase (h : host) : world -> async bool :=
  Common.connectDatabaseWithDefault h.

Definition app (h : host) (d : deps) : list layer :=
  [ mkLayer "cors" Always (ReqFn (cors d (corsOptions h)));
    mkLayer "express.json" Always (ReqFn (jsonParser d));
    mkLayer "express.urlencoded" Always (ReqFn (urlencodedParser d));
    mkLayer "static /uploads" (Use "/uploads") (ReqFn (serveStatic d (staticUploadsPath h)));
    mkLayer "logger" Always (ReqFn Common.logger) ]
  ++ Common.routeTable d ++
  [ mkLayer "GET /health" (Get "/health") (ReqFn (health h));
    mkLayer "GET /test-whatsapp" (Get "/test-whatsapp") (ReqFn Common.testWhatsapp);
    mkLayer "notFound" Always (ReqFn Common.notFound);
    mkLayer "globalError" Always (ErrFn Common.globalError) ].

End RevB.

(** ** RevC: src/server.js, lines 358-560 *)

Module RevC.

Import Express.

Definition corsOptions (h : host) : corsOptions :=
  mkCors [ "http://localhost:3000";
           "http://localhost:5173";
           "http://localhost:5174";
           "http://127.0.0.1:3000";
           "http://127.0.0.1:5173" ]
         true
         ["GET"; "POST"; "PUT"; "DELETE"; "OPTIONS"]
         ["Content-Type"; "Authorization"].

(** [process.env.NODE_ENV === 'production' || process.env.VERCEL], used
    as a condition. *)
Definition isProduction (h : host) : bool :=
  JS.strict_eq (env h !! "NODE_ENV") "production" || JS.truthy (env h !! "VERCEL").

Definition uploadsDir (h : host) : string :=
  if isProduction h then "/tmp/uploads" else Path.join (dirname h) "uploads".

Definition baseDir (h : host) : string :=
  if isProduction h then "/tmp" else dirname h.

Definition createDirectories (h : host) (deny : Fs.refusal) : M unit :=
  try_catch
    (forEach requiredDirs (fun dir =>
       bind (Fs.existsSync (Path.join (baseDir h) dir)) (fun there =>
         if negb there then
           bind (Fs.mkdirSync deny (Path.join (baseDir h) dir)) (fun _ =>
             tell Log ("Created directory: " +:+ Path.join (baseDir h) dir))
         else ret tt)))
    (fun err => tell Warn ("Could not create directories: " +:+ message err)).

Definition health (h : host) : handler :=
  fun req w =>
    (w, Respond (mkResponse 200 (Json (JObj
      [ ("status", JStr "OK");
        ("message", JStr "Server is running");
        ("timestamp", JStr (isoNow w));
        ("environment", JStr (if isProduction h then "production" else "development"));
        ("uploadsDir", JStr (uploadsDir h));
        ("routes", Common.routesObject) ])))).

Definition connectDatabase (h : host) : world -> async bool :=
  Common.connectDatabaseWithDefault h.

Definition staticLayer (h : host) (d : deps) : list layer :=
  if isProduction h then []
  else [ mkLayer "static /uploads" (Use "/uploads")
           (ReqFn (serveStatic d (Path.join (dirname h) "uploads"))) ].

Definition app (h : host) (d : deps) : list layer :=
  [ mkLayer "cors" Always (ReqFn (cors d (corsOptions h)));
    mkLayer "express.json" Always (ReqFn (jsonParser d));
    mkLayer "express.urlencoded" Always (ReqFn (urlencodedParser d)) ]
  ++ staticLayer h d ++
  [ mkLayer "logger" Always (ReqFn Common.logger) ]
  ++ Common.routeTable d ++
  [ mkLayer "GET /health" (Get "/health") (ReqFn (health h));
    mkLayer "GET /test-whatsapp" (Get "/test-whatsapp") (ReqFn Common.testWhatsapp);
    mkLayer "notFound" Always (ReqFn Common.notFound);
    mkLayer "globalError" Always (ErrFn Common.globalError) ].

End RevC.

(** ** RevD: src/unnamed/part_000, lines 1-166 *)

Module RevD.

Import Express.

Definition corsOptions (h : host) : corsOptions :=
  mkCors [ "http://localhost:3000";
           "http://localhost:5173";
           "http://localhost:5174";
           "http://127.0.0.1:3000";
           "http://127.0.0.1:5173" ]
         true
         ["GET"; "POST"; "PUT"; "DELETE"; "OPTIONS"]
         ["Content-Type"; "Authorization"].

Definition health : handler :=
  fun req w =>
    (w, Respond (mkResponse 200 (Json (JObj
      [ ("status", JStr "OK");
        ("message", JStr "Server is running");
        ("timestamp", JStr (isoNow w));
        ("routes", Common.routesObject) ])))).

(** [if (mongoose.connections[0].readyState) return;]: any non-zero
    state counts. *)
Definition afterConnect (outcome : option error) : M unit :=
  fun w =>
    match outcome with
    | None => Ret tt (emit Log "MongoDB Connected" w)
    | Some e => Throw e (emit Err ("MongoDB Connection Error: " +:+ message e) w)
    end.

Definition connectDatabase (h : host) : world -> async unit :=
  fun w =>
    if negb (readyState w =? 0)%Z
    then Settled (Ret tt (emit Log "MongoDB already connected" w))
    else
      Pending (env h !! "MONGO_URI")
        (Mongoose.connectCalled (env h !! "MONGO_URI") w)
        afterConnect.

(** The gate as it handles one request with no other request in flight. *)
Definition dbGate (h : host) (d : deps) : handler :=
  fun req w =>
    match awaitNow (mongo d) (connectDatabase h w) with
    | Ret _ w' => (w', Next)
    | Throw _ w' => (w', Respond Common.gateFailure)
    end.

Definition app (h : host) (d : deps) : list layer :=
  [ mkLayer "cors" Always (ReqFn (cors d (corsOptions h)));
    mkLayer "express.json" Always (ReqFn (jsonParser d));
    mkLayer "express.urlencoded" Always (ReqFn (urlencodedParser d));
    mkLayer "static /uploads" (Use "/uploads")
      (ReqFn (serveStatic d (Path.join (dirname h) "uploads")));
    mkLayer "logger" Always (ReqFn Common.logger) ]
  ++ Common.routeTable d ++
  [ mkLayer "GET /health" (Get "/health") (ReqFn health);
    mkLayer "GET /test-whatsapp" (Get "/test-whatsapp") (ReqFn Common.testWhatsapp);
    mkLayer "notFound" Always (ReqFn Common.notFound);
    mkLayer "globalError" Always (ErrFn Common.globalError);
    mkLayer "dbGate" Always (ReqFn (dbGate h d)) ].

End RevD.

(** ** RevE: src/unnamed/part_000, lines 167-377 *)

Module RevE.

Import Express.

Definition isProduction (h : host) : bool :=
  JS.strict_eq (env h !! "NODE_ENV") "production"
  || JS.strict_eq (env h !! "VERCEL") "1"
  || JS.strict_eq (env h !! "VERCEL") "true".

Definition uploadsDir (h : host) : string :=
  if isProduction h then "/tmp/uploads" else Path.join (dirname h) "uploads".

Definition corsOptions (h : host) : corsOptions :=
  mkCors [ "http://localhost:3000";
           "http://localhost:5173";
           "http://localhost:5174";
           "http://127.0.0.1:3000";
           "http://127.0.0.1:5173" ]
         true
         ["GET"; "POST"; "PUT"; "DELETE"; "OPTIONS"]
         ["Content-Type"; "Authorization"].

Definition baseDir (h : host) : string :=
  if isProduction h then "/tmp" else dirname h.

Definition createDirectories (h : host) (deny : Fs.refusal) : M unit :=
  try_catch
    (forEach requiredDirs (fun dir =>
       bind (Fs.existsSync (Path.join (baseDir h) dir)) (fun there =>
         if negb there then
           bind (Fs.mkdirSync deny (Path.join (baseDir h) dir)) (fun _ =>
             tell Log ("Created directory: " +:+ Path.join (baseDir h) dir))
         else ret tt)))
    (fun err => tell Warn ("Could not create directories: " +:+ message err)).

Definition knownRoutes : list json :=
  [ JStr "/";
    JStr "/health";
    JStr "/test-whatsapp";
    JStr "/api/whatsapp/status";
    JStr "/api/customers";
    JStr "/api/attendance";
    JStr "/api/reports" ].

(** The dash in the welcome message is written in ASCII here. *)
Definition root : handler :=
  fun req w =>
    (w, Respond (mkResponse 200 (Json (JObj
      [ ("success", JBool true);
        ("message", JStr "Welcome - API is up. See /health for details.");
        ("health", JStr "/health");
        ("availableRoutes", JArr knownRoutes) ])))).

Definition health (h : host) : handler :=
  fun req w =>
    (w, Respond (mkResponse 200 (Json (JObj
      [ ("status", JStr "OK");
        ("message", JStr "Server is running");
        ("timestamp", JStr (isoNow w));
        ("environment", JStr (if isProduction h then "production" else "development"));
        ("uploadsDir", JStr (uploadsDir h));
        ("routes", JObj [ ("root", JStr "/");
                          ("whatsapp", JStr "/api/whatsapp");
                          ("customers", JStr "/api/customers");
                          ("attendance", JStr "/api/attendance");
                          ("reports", JStr "/api/reports") ]) ])))).

Definition notFound : handler :=
  fun req w =>
    (emit Log ("404 - Route not found: " +:+ method req +:+ " " +:+ url req) w,
     Respond (mkResponse 404 (Json (JObj
       [ ("success", JBool false);
         ("message", JStr ("Route " +:+ method req +:+ " " +:+ url req +:+ " not found"));
         ("availableRoutes", JArr knownRoutes) ])))).

Definition connectDatabase (h : host) : world -> async bool :=
  Common.connectDatabaseWithDefault h.

Definition staticLayer (h : host) (d : deps) : list layer :=
  if isProduction h then []
  else [ mkLayer "static /uploads" (Use "/uploads")
           (ReqFn (serveStatic d (Path.join (dirname h) "uploads"))) ].

Definition app (h : host) (d : deps) : list layer :=
  [ mkLayer "cors" Always (ReqFn (cors d (corsOptions h)));
    mkLayer "express.json" Always (ReqFn (jsonParser d));
    mkLayer "express.urlencoded" Always (ReqFn (urlencodedParser d)) ]
  ++ staticLayer h d ++
  [ mkLayer "logger" Always (ReqFn Common.logger) ]
  ++ Common.routeTable d ++
  [ mkLayer "GET /" (Get "/") (ReqFn root);
    mkLayer "GET /health" (Get "/health") (ReqFn (health h));
    mkLayer "GET /test-whatsapp" (Get "/test-whatsapp") (ReqFn Common.testWhatsapp);
    mkLayer "notFound" Always (ReqFn notFound);
    mkLayer "globalError" Always (ErrFn Common.globalError) ].

End RevE.

(** ** Notions used to state the properties *)

(** A path component as [normalize] leaves it: no separator inside, and
    none of "", "." and "..". *)
Definition clean (s : string) : Prop :=
  Path.split s = [s] /\ Path.plain s = true.

(** The callback of [requiredDirs.forEach] inside [createDirectories]
    (RevC, RevE), for the base directory [base]. *)
Definition createIn (base : string) (deny : Fs.refusal) (dir : string) : M unit :=
  bind (Fs.existsSync (Path.join base dir)) (fun there =>
    if negb there then
      bind (Fs.mkdirSync deny (Path.join base dir)) (fun _ =>
        tell Log ("Created directory: " +:+ Path.join base dir))
    else ret tt).

(** The directory under which RevB puts its areas. *)
Definition areaBase (h : host) : string :=
  if RevB.isServerless h then RevB.uploadBase h else dirname h.

(** The host with one more environment variable set. *)
Definition setenv (k v : string) (h : host) : host :=
  mkHost (<[k := v]> (env h)) (dirname h) (cwd h) (tmpdir h).

(** The options every revision hands to [cors]. *)
Definition fixedCors : Express.corsOptions :=
  Express.mkCors
    [ "http://localhost:3000"; "http://localhost:5173"; "http://localhost:5174";
      "http://127.0.0.1:3000"; "http://127.0.0.1:5173" ]
    true
    ["GET"; "POST"; "PUT"; "DELETE"; "OPTIONS"]
    ["Content-Type"; "Authorization"].

Definition isReqFn (l : Express.layer) : Prop :=
  match Express.fn l with
  | Express.ReqFn _ => True
  | Express.ErrFn _ => False
  end.

Definition isGlobalError (l : Express.layer) : Prop :=
  Express.name l = "globalError"
  /\ Express.route l = Express.Always
  /\ Express.fn l = Express.ErrFn Common.globalError.

(** Walking [ls] with a pending error, the first error handler met is the
    global one. *)
Fixpoint errorsReach (ls : list Express.layer) : Prop :=
  match ls with
  | [] => False
  | l :: rest =>
      match Express.fn l with
      | Express.ErrFn _ => isGlobalError l
      | Express.ReqFn _ => errorsReach rest
      end
  end.

(** The request falls through every layer of [ls]: each function that is
    called for it calls [next()].  The result is the world it leaves. *)
Fixpoint passThrough (ls : list Express.layer) (req : Express.request) (w : world)
  : option world :=
  match ls with
  | [] => Some w
  | l :: rest =>
      if Express.matches (Express.route l) req then
        match Express.fn l with
        | Express.ReqFn f =>
            match f req w with
            | (w', Express.Next) => passThrough rest req w'
            | _ => None
            end
        | Express.ErrFn _ => passThrough rest req w
        end
      else passThrough rest req w
  end.

(** The layers registered before the one called [nm]. *)
Fixpoint upTo (nm : string) (ls : list Express.layer) : list Express.layer :=
  match ls with
  | [] => []
  | l :: rest => if String.eqb (Express.name l) nm then [] else l :: upTo nm rest
  end.

(** The layers registered after the one called [nm]. *)
Fixpoint after (nm : string) (ls : list Express.layer) : list Express.layer :=
  match ls with
  | [] => []
  | l :: rest => if String.eqb (Express.name l) nm then rest else after nm rest
  end.

(** The body the global error handler gives error [e] in world [w]. *)
Definition errorBody (e : error) (w : world) : Express.json :=
  Express.JObj
    [ ("success", Express.JBool false);
      ("message", Express.JStr (Common.messageOrDefault e));
      ("timestamp", Express.JStr (isoNow w)) ].

(** A not-found answer in the documented shape: status 404 and a JSON
    body with [success: false], the message naming the request, and an
    [availableRoutes] array that contains "/health". *)
Definition listsRoutes (req : Express.request) (r : Express.response) : Prop :=
  Express.statusCode r = 404%Z
  /\ exists j routes,
       Express.body r = Express.Json j
       /\ Express.field "success" j = Some (Express.JBool false)
       /\ Express.field "message" j
          = Some (Express.JStr ("Route " +:+ Express.method req +:+ " "
                                +:+ Express.url req +:+ " not found"))
       /\ Express.field "availableRoutes" j = Some (Express.JArr routes)
       /\ In (Express.JStr "/health") routes.

(** ** Hosts, collaborators and worlds used as examples *)

Definition hostC4 : host :=
  mkHost (<["UPLOAD_DIR" := "/data"]> (<["VERCEL" := "1"]> ∅)) "/var/task" "/var/task" "/tmp".

Definition hostLocal : host :=
  mkHost (<["UPLOAD_DIR" := "data/up"]> ∅) "/srv/app" "/srv/app" "/tmp".

Definition hostBare : host := mkHost ∅ "/srv/app" "/srv/app" "/tmp".

Definition hostProd : host :=
  mkHost (<["NODE_ENV" := "production"]> ∅) "/var/task" "/var/task" "/tmp".

Definition hostDb : host :=
  mkHost (<["MONGO_URI" := "mongodb://db.example/gym"]> ∅) "/var/task" "/var/task" "/tmp".

(** Only /tmp/uploads cannot be created. *)
Definition denyUploads : Fs.refusal :=
  fun p => if String.eqb p "/tmp/uploads"
           then Some "EACCES: permission denied, mkdir '/tmp/uploads'"
           else None.

(** Only /tmp/whatsapp-auth cannot be created. *)
Definition denyAuth : Fs.refusal :=
  fun p => if String.eqb p "/tmp/whatsapp-auth"
           then Some "EROFS: read-only file system"
           else None.

Definition pass : Express.handler := fun req w => (w, Express.Next).

(** Collaborators that hand every request on, and a database that
    accepts every connection. *)
Definition deps0 : deps :=
  mkDeps (fun _ => pass) pass pass (fun _ => pass) pass pass pass pass (fun _ => None).

Definition forbidden : error := mkError "Forbidden" (Some 403%Z).

Definition customerOk : Express.response :=
  Express.mkResponse 200 (Express.Json (Express.JObj [("success", Express.JBool true)])).

(** As [deps0], but the customer routes answer 200, the report routes
    raise a 403 error, and no database answers. *)
Definition deps1 : deps :=
  mkDeps (fun _ => pass) pass pass (fun _ => pass) pass
         (fun req w => (w, Express.Respond customerOk))
         pass
         (fun req w => (w, Express.Raise forbidden))
         (fun _ => Some (mkError "connect ECONNREFUSED" None)).

(** A process whose first connection attempt is still in progress. *)
Definition connectingWorld : world :=
  Mongoose.connectCalled (Some "mongodb://db.example/gym") (fresh ∅ "").

Definition unknownThing : Express.request :=
  Express.mkRequest "GET" "/api/unknown-thing".

Definition clock : string := "2025-01-01T00:00:00.000Z".

(** ** Start-up: what runs when the module is loaded *)

(** [a.then(k)] for an async function that awaits at most once. *)
Definition mapAsync {A B} (a : async A) (k : res A -> res B) : async B :=
  match a with
  | Settled r => Settled (k r)
  | Pending uri w c => Pending uri w (fun o v => k (c o v))
  end.

(** Synchronous code first, then an async function. *)
Definition afterSync {A} (m : M unit) (f : world -> async A) : world -> async A :=
  fun w => match m w with
           | Ret _ w' => f w'
           | Throw e w' => Settled (Throw e w')
           end.

(** [n] calls of [f], each awaited before the next is made; the verdicts
    are listed in call order. *)
Fixpoint sequentially {A} (db : option string -> option error)
  (f : world -> async A) (n : nat) (w : world) : world * list (verdict A) :=
  match n with
  | O => (w, [])
  | S n' =>
      match awaitNow db (f w) with
      | Ret a w' =>
          let (w'', vs) := sequentially db f n' w' in (w'', Fulfilled a :: vs)
      | Throw e w' =>
          let (w'', vs) := sequentially db f n' w' in (w'', Rejected e :: vs)
      end
  end.

Module Startup.

(** How loading the module leaves the process: [app.listen] has returned
    for a port, [process.exit] has ended it, or neither (the host calls
    the exported app). *)
Inductive state :=
| Listening (port : string)
| Exited (code : Z)
| Idle.

(** [process.env.PORT || 5000] *)
Definition port (h : host) : string := JS.or_default (env h !! "PORT") "5000".

(** What [app.listen(port)] throws before it returns, if anything: Node
    refuses, with ERR_SOCKET_BAD_PORT, a port that is no integer from 0
    to 65535. *)
Definition refusedPort := string -> option error.

Definition showBool (b : bool) : string := if b then "true" else "false".

(** The callback of [app.listen] in RevC and RevE. *)
Definition announce (p : string) : M unit :=
  bind (tell Log ("Server running on port " +:+ p)) (fun _ =>
  bind (tell Log ("API Base URL: http://localhost:" +:+ p)) (fun _ =>
  bind (tell Log ("WhatsApp API: http://localhost:" +:+ p +:+ "/api/whatsapp")) (fun _ =>
  bind (tell Log ("Health Check: http://localhost:" +:+ p +:+ "/health")) (fun _ =>
  tell Log ("Test WhatsApp: http://localhost:" +:+ p +:+ "/test-whatsapp"))))).

(** The three lines logged around route registration (RevA to RevD). *)
Definition registering : M unit :=
  bind (tell Log "Registering routes...") (fun _ =>
  bind (tell Log "WhatsApp routes registered at /api/whatsapp") (fun _ =>
  tell Log "All routes registered")).

(** RevA and RevD: no connection and no listener at load time. *)
Definition onLoadA : world -> async state :=
  afterSync registering (fun w => Settled (Ret Idle w)).

Definition onLoadD : world -> async state :=
  afterSync registering (fun w => Settled (Ret Idle w)).

(** RevB, [startServer]: connect, then listen; a failed connection or a
    throwing [app.listen] ends the process with code 1. *)
Definition startServerB (h : host) (listen : refusedPort) : world -> async state :=
  fun w =>
    mapAsync (RevB.connectDatabase h w) (fun r =>
      match r with
      | Ret _ v =>
          match listen (port h) with
          | Some e =>
              Ret (Exited 1) (emit Err ("Failed to start server: " +:+ message e) v)
          | None =>
              match bind (announce (port h)) (fun _ =>
                    bind (tell Log ("Upload base: " +:+ RevB.uploadBase h)) (fun _ =>
                    if RevB.isServerless h
                    then tell Log "Running serverless: uploads are ephemeral in /tmp. Consider external storage."
                    else ret tt)) v with
              | Ret _ v' => Ret (Listening (port h)) v'
              | Throw e v' =>
                  Ret (Exited 1) (emit Err ("Failed to start server: " +:+ message e) v')
              end
          end
      | Throw e v => Ret (Exited 1) (emit Err ("Failed to start server: " +:+ message e) v)
      end).

Definition onLoadB (h : host) (deny : Fs.refusal) (listen : refusedPort)
  : world -> async state :=
  afterSync
    (bind (tell Log ("Running in serverless mode: " +:+ showBool (RevB.isServerless h))) (fun _ =>
     bind (tell Log ("Upload base directory: " +:+ RevB.uploadBase h)) (fun _ =>
     bind (RevB.ensureDirs h deny) (fun _ =>
     bind (tell Log ("Static uploads served from: " +:+ RevB.staticUploadsPath h)) (fun _ =>
     registering)))))
    (startServerB h listen).

(** RevC, [startServer]: the listener and the exit are both skipped in
    production; outside it a throwing [app.listen] is caught like a
    failed connection. *)
Definition startServerC (h : host) (listen : refusedPort) : world -> async state :=
  fun w =>
    mapAsync (RevC.connectDatabase h w) (fun r =>
      match r with
      | Ret _ v =>
          if negb (RevC.isProduction h) then
            match listen (port h) with
            | Some e =>
                Ret (if negb (RevC.isProduction h) then Exited 1 else Idle)
                    (emit Err ("Failed to start server: " +:+ message e) v)
            | None =>
                match announce (port h) v with
                | Ret _ v' => Ret (Listening (port h)) v'
                | Throw e v' =>
                    Ret (if negb (RevC.isProduction h) then Exited 1 else Idle)
                        (emit Err ("Failed to start server: " +:+ message e) v')
                end
            end
          else Ret Idle v
      | Throw e v =>
          Ret (if negb (RevC.isProduction h) then Exited 1 else Idle)
              (emit Err ("Failed to start server: " +:+ message e) v)
      end).

(** [connectDatabase().catch(console.error)] *)
Definition connectAndLog (connect : world -> async bool) : world -> async state :=
  fun w =>
    mapAsync (connect w) (fun r =>
      match r with
      | Ret _ v => Ret Idle v
      | Throw e v => Ret Idle (emit Err (message e) v)
      end).

Definition onLoadC (h : host) (deny : Fs.refusal) (listen : refusedPort)
  : world -> async state :=
  afterSync
    (bind (RevC.createDirectories h deny) (fun _ => registering))
    (if negb (RevC.isProduction h) then startServerC h listen
     else connectAndLog (RevC.connectDatabase h)).

(** RevE, [startServer]. *)
Definition startServerE (h : host) (listen : refusedPort) : world -> async state :=
  fun w =>
    mapAsync (RevE.connectDatabase h w) (fun r =>
      match r with
      | Ret _ v =>
          if negb (RevE.isProduction h) then
            match listen (port h) with
            | Some e =>
                Ret (if negb (RevE.isProduction h) then Exited 1 else Idle)
                    (emit Err ("Failed to start server: " +:+ message e) v)
            | None =>
                match announce (port h) v with
                | Ret _ v' => Ret (Listening (port h)) v'
                | Throw e v' =>
                    Ret (if negb (RevE.isProduction h) then Exited 1 else Idle)
                        (emit Err ("Failed to start server: " +:+ message e) v')
                end
            end
          else Ret Idle v
      | Throw e v =>
          Ret (if negb (RevE.isProduction h) then Exited 1 else Idle)
              (emit Err ("Failed to start server: " +:+ message e) v)
      end).

Definition onLoadE (h : host) (deny : Fs.refusal) (listen : refusedPort)
  : world -> async state :=
  afterSync
    (bind (RevE.createDirectories h deny) (fun _ =>
     bind (tell Log "Registering routes...") (fun _ =>
     tell Log "All routes registered")))
    (if negb (RevE.isProduction h) then startServerE h listen
     else connectAndLog (RevE.connectDatabase h)).

End Startup.

(** A settled start-up that left the process in state [st], with
    [calls] the [mongoose.connect] calls made so far. *)
Definition landed (r : res Startup.state) (st : Startup.state)
  (calls : list (option string)) : Prop :=
  exists v, r = Ret st v /\ connects v = calls.

(** The function hands the request on, in whatever world it is called. *)
Definition passes (f : Express.handler) (req : Express.request) : Prop :=
  forall w, snd (f req w) = Express.Next.

(** The request gets past the layer: it does not match, or the layer's
    function hands it on. *)
Definition passOrSkip (req : Express.request) (l : Express.layer) : Prop :=
  Express.matches (Express.route l) req = false
  \/ exists f, Express.fn l = Express.ReqFn f /\ passes f req.

(** Names of the request functions of [ls] that are called for a request
    that falls through all of them. *)
Fixpoint called (ls : list Express.layer) (req : Express.request) : list string :=
  match ls with
  | [] => []
  | l :: rest =>
      if Express.matches (Express.route l) req then
        match Express.fn l with
        | Express.ReqFn _ => Express.name l :: called rest req
        | Express.ErrFn _ => called rest req
        end
      else called rest req
  end.

(** The answer every revision gives on GET /health: status 200, a JSON
    body with [status: "OK"], the fixed message and the current time,
    after the prelude, the logger and the health route and nothing else
    have run. *)
Definition healthy (r : Express.result) : Prop :=
  Express.statusCode (Express.reply r) = 200%Z
  /\ Express.trace r
     = ["cors"; "express.json"; "express.urlencoded"; "logger"; "GET /health"]
  /\ exists j,
       Express.body (Express.reply r) = Express.Json j
       /\ Express.field "status" j = Some (Express.JStr "OK")
       /\ Express.field "message" j = Some (Express.JStr "Server is running")
       /\ Express.field "timestamp" j = Some (Express.JStr (isoNow (Express.final r))).

(** cors and the two body parsers hand the request on. *)
Definition preludePasses (d : deps) (req : Express.request) : Prop :=
  passes (cors d fixedCors) req
  /\ passes (jsonParser d) req
  /\ passes (urlencodedParser d) req.

(** ** More hosts and collaborators used as examples *)

Definition hostVercel : host :=
  mkHost (<["VERCEL" := "1"]> (<["MONGO_URI" := "mongodb://db.example/gym"]> ∅))
         "/var/task" "/var/task" "/tmp".

(** VERCEL is set, but to neither "1" nor "true". *)
Definition hostVercelYes : host :=
  mkHost (<["VERCEL" := "yes"]> ∅) "/var/task" "/var/task" "/tmp".

(** Node's answer to a port above 65535; every other port is taken. *)
Definition portCheck : Startup.refusedPort :=
  fun p => if String.eqb p "70000"
           then Some (mkError "options.port should be >= 0 and < 65536. Received type string ('70000')." None)
           else None.

Definition hostBadPort : host :=
  mkHost (<["PORT" := "70000"]> ∅) "/srv/app" "/srv/app" "/tmp".

Definition hostPort : host :=
  mkHost (<["PORT" := "8080"]> (<["MONGO_URI" := "mongodb://db.example/gym"]> ∅))
         "/srv/app" "/srv/app" "/tmp".

Definition refused : error := mkError "connect ECONNREFUSED" None.

Definition teapot : error := mkError "" (Some 200%Z).

(** As [deps0], but the static middleware finds the file. *)
Definition depsStatic : deps :=
  mkDeps (fun _ => pass) pass pass
         (fun _ req w => (w, Express.Respond customerOk))
         pass pass pass pass (fun _ => None).

(** As [deps0], but the report routes raise an error that carries status
    200 and an empty message. *)
Definition depsTeapot : deps :=
  mkDeps (fun _ => pass) pass pass (fun _ => pass) pass pass pass
         (fun req w => (w, Express.Raise teapot))
         (fun _ => None).

Definition uploadReq : Express.request := Express.mkRequest "GET" "/uploads/photo.jpg".

Definition healthReq : Express.request := Express.mkRequest "GET" "/health".

(** * Theorems *)

(** ** Truthiness *)

Lemma truthy_Some s : JS.truthy (Some s) = true <-> s <> "".
Proof.
  unfold JS.truthy. destruct (String.eqb_spec s ""); simpl; split; congruence.
Qed.

Lemma or_default_truthy v d s :
  v = Some s -> JS.truthy v = true -> JS.or_default v d = s.
Proof.
  intros -> H. unfold JS.truthy, JS.or_default in *.
  destruct (String.eqb s ""); simpl in *; congruence.
Qed.

Lemma or_default_falsy v d : JS.truthy v = false -> JS.or_default v d = d.
Proof.
  unfold JS.truthy, JS.or_default. destruct v as [s|]; [|done].
  destruct (String.eqb s ""); simpl; congruence.
Qed.

Example split_ex : Path.split "/a//b" = [""; "a"; ""; "b"].
Proof. reflexivity. Qed.

Example join_ex1 : Path.join "/var/task" "uploads" = "/var/task/uploads".
Proof. reflexivity. Qed.

Example join_ex2 : Path.join "/tmp/" "../x/./y/" = "/x/y/".
Proof. reflexivity. Qed.

Example resolve_ex1 : Path.resolve "/home/app" "data/../up" = "/home/app/up".
Proof. reflexivity. Qed.

Example resolve_ex2 : Path.resolve "/home/app" "/srv//files/" = "/srv/files".
Proof. reflexivity. Qed.

Example normalize_ex : Path.normalize "./" = "./" /\ Path.normalize "/.." = "/".
Proof. split; reflexivity. Qed.

Example ancestors_ex : Path.ancestors "/tmp/a/b" = ["/tmp"; "/tmp/a"; "/tmp/a/b"].
Proof. reflexivity. Qed.


(** ** Paths *)

Lemma split_nonempty p : Path.split p <> [].
Proof.
  destruct p as [|c p]; simpl; [done|].
  destruct (Ascii.eqb c Path.slash); [done|].
  destruct (Path.split p); done.
Qed.

Lemma split_append_slash a b :
  Path.split (a +:+ "/" +:+ b) = (Path.split a ++ Path.split b)%list.
Proof.
  induction a as [|c a IH]; simpl; [done|].
  destruct (Ascii.eqb c Path.slash); [by rewrite IH|].
  rewrite IH. pose proof (split_nonempty a) as Hne.
  destruct (Path.split a); [done|reflexivity].
Qed.

Lemma plain_inv x :
  Path.plain x = true ->
  String.eqb x "" || String.eqb x "." = false /\ String.eqb x ".." = false.
Proof.
  unfold Path.plain.
  destruct (String.eqb x ""), (String.eqb x "."), (String.eqb x ".."); simpl; auto.
Qed.

Lemma normSegs_snoc allow x :
  Path.plain x = true ->
  forall l acc,
    Path.normSegs allow acc (l ++ [x])%list = (Path.normSegs allow acc l ++ [x])%list.
Proof.
  intros Hx. destruct (plain_inv x Hx) as [H1 H2].
  induction l as [|s l IH]; intros acc; simpl.
  - rewrite H1, H2. reflexivity.
  - destruct (String.eqb s "" || String.eqb s "."); [apply IH|].
    destruct (String.eqb s "..").
    + destruct acc as [|top acc']; [destruct allow; apply IH|].
      destruct (String.eqb top ".."); apply IH.
    + apply IH.
Qed.

Lemma isAbsolute_append a b :
  a <> "" -> Path.isAbsolute (a +:+ b) = Path.isAbsolute a.
Proof. destruct a; [done|reflexivity]. Qed.

(** Joining a simple name to a directory appends one component. *)
Lemma join_child a x :
  a <> "" -> Path.split x = [x] -> Path.plain x = true ->
  Path.join a x = Path.render (Path.isAbsolute a) (Path.segments a ++ [x])%list.
Proof.
  intros Ha Hsplit Hx. unfold Path.join.
  destruct (String.eqb_spec a ""); [done|].
  destruct (String.eqb_spec x "") as [->|_]; [discriminate Hx|].
  unfold Path.normalize.
  destruct (String.eqb_spec (a +:+ "/" +:+ x) "") as [E|_].
  { destruct a; [done|discriminate E]. }
  assert (Hseg : Path.segments (a +:+ "/" +:+ x) = (Path.segments a ++ [x])%list).
  { unfold Path.segments. rewrite isAbsolute_append by done.
    rewrite split_append_slash, Hsplit. by apply normSegs_snoc. }
  rewrite Hseg, isAbsolute_append by done.
  assert (Hend : Path.endsWithSlash (a +:+ "/" +:+ x) = false).
  { unfold Path.endsWithSlash. rewrite split_append_slash, Hsplit, rev_app_distr.
    simpl. pose proof (split_nonempty a) as Hne.
    destruct (rev (Path.split a)) eqn:E.
    - apply (f_equal (@rev string)) in E. rewrite rev_involutive in E. done.
    - destruct (plain_inv x Hx) as [H1 _].
      destruct (String.eqb x ""); [discriminate H1|reflexivity]. }
  rewrite Hend. destruct (Path.segments a ++ [x])%list eqn:E; [by destruct (Path.segments a)|reflexivity].
Qed.

Lemma resolve_absolute cwd p : Path.isAbsolute (Path.resolve cwd p) = true.
Proof. unfold Path.resolve. destruct (Path.isAbsolute p); reflexivity. Qed.

(** ** Storage root (C4) *)

(** C4, counterexample: in the revision that defines [uploadsDir], a
    configured UPLOAD_DIR override is not the resolved storage root. *)
Lemma C4_override_ignored_by_uploadsDir :
  env hostC4 !! "UPLOAD_DIR" = Some "/data"
  /\ Path.resolve (cwd hostC4) "/data" = "/data"
  /\ RevC.uploadsDir hostC4 = "/tmp/uploads"
  /\ RevC.uploadsDir hostC4 <> Path.resolve (cwd hostC4) "/data".
Proof. vm_compute. repeat split; discriminate. Qed.

Lemma RevC_isProduction_setenv v h :
  RevC.isProduction (setenv "UPLOAD_DIR" v h) = RevC.isProduction h.
Proof.
  unfold RevC.isProduction, setenv; simpl.
  by rewrite !lookup_insert_ne.
Qed.

Lemma RevE_isProduction_setenv v h :
  RevE.isProduction (setenv "UPLOAD_DIR" v h) = RevE.isProduction h.
Proof.
  unfold RevE.isProduction, setenv; simpl.
  by rewrite !lookup_insert_ne.
Qed.

(** C4, as amended: the revision that reads UPLOAD_DIR resolves a
    non-empty override to an absolute path whatever VERCEL says, and
    without one uses one component below the temporary directory
    (serverless) or below the application directory; the revisions that
    define [uploadsDir] read no override and use /tmp/uploads in
    production and one component below the application directory
    otherwise. *)
Theorem C4_storage_root (h : host) :
  (forall o, env h !! "UPLOAD_DIR" = Some o -> o <> "" ->
     RevB.uploadBase h = Path.resolve (cwd h) o
     /\ Path.isAbsolute (RevB.uploadBase h) = true)
  /\ (JS.truthy (env h !! "UPLOAD_DIR") = false ->
      tmpdir h <> "" -> dirname h <> "" ->
      RevB.uploadBase h =
        if RevB.isServerless h
        then Path.render (Path.isAbsolute (tmpdir h))
                         (Path.segments (tmpdir h) ++ ["gym_uploads"])%list
        else Path.render (Path.isAbsolute (dirname h))
                         (Path.segments (dirname h) ++ ["uploads"])%list)
  /\ (forall v,
        RevC.uploadsDir (setenv "UPLOAD_DIR" v h) = RevC.uploadsDir h
        /\ RevE.uploadsDir (setenv "UPLOAD_DIR" v h) = RevE.uploadsDir h)
  /\ (dirname h <> "" ->
      RevC.uploadsDir h =
        (if RevC.isProduction h then "/tmp/uploads"
         else Path.render (Path.isAbsolute (dirname h))
                          (Path.segments (dirname h) ++ ["uploads"])%list)
      /\ RevE.uploadsDir h =
        (if RevE.isProduction h then "/tmp/uploads"
         else Path.render (Path.isAbsolute (dirname h))
                          (Path.segments (dirname h) ++ ["uploads"])%list)).
Proof.
  repeat split.
  - unfold RevB.uploadBase, RevB.uploadBaseEnv. rewrite H. simpl.
    destruct (String.eqb_spec o ""); [done|reflexivity].
  - unfold RevB.uploadBase, RevB.uploadBaseEnv. rewrite H. simpl.
    destruct (String.eqb_spec o ""); [done|]. apply resolve_absolute.
  - intros Hno Ht Hd. unfold RevB.uploadBase, RevB.uploadBaseEnv.
    rewrite Hno. unfold RevB.defaultLocalUploads.
    destruct (RevB.isServerless h); by apply join_child.
  - unfold RevC.uploadsDir. by rewrite RevC_isProduction_setenv.
  - unfold RevE.uploadsDir. by rewrite RevE_isProduction_setenv.
  - unfold RevC.uploadsDir. destruct (RevC.isProduction h); [done|].
    by apply join_child.
  - unfold RevE.uploadsDir. destruct (RevE.isProduction h); [done|].
    by apply join_child.
Qed.

Lemma C4_storage_root_witness :
  RevB.uploadBase hostC4 = "/data"
  /\ RevB.uploadBase hostLocal = "/srv/app/data/up"
  /\ RevB.uploadBase hostBare = "/srv/app/uploads"
  /\ RevC.uploadsDir hostBare = "/srv/app/uploads".
Proof.
  destruct (C4_storage_root hostC4) as (H1 & _).
  destruct (C4_storage_root hostLocal) as (H2 & _).
  destruct (C4_storage_root hostBare) as (_ & H3 & _ & H4).
  split; [|split; [|split]].
  - exact (proj1 (H1 "/data" eq_refl ltac:(discriminate))).
  - exact (proj1 (H2 "data/up" eq_refl ltac:(discriminate))).
  - exact (H3 eq_refl ltac:(discriminate) ltac:(discriminate)).
  - exact (proj1 (H4 ltac:(discriminate))).
Defined.

(** ** Storage areas (C5) *)

Lemma forEach_guarded {A} (xs : list A) (f : A -> M unit) :
  (forall x w, threw (f x w) = false) ->
  forall w, threw (forEach xs f w) = false.
Proof.
  intros Hf. induction xs as [|x xs IH]; intros w; simpl; [done|].
  unfold bind. specialize (Hf x w). destruct (f x w); [apply IH|discriminate].
Qed.

(** What one guarded callback of RevB does, in the world it starts in. *)
Lemma RevB_ensureDir_cases h deny dir w :
  let p := RevB.dirPath h dir in
  RevB.ensureDir h deny dir w =
    if bool_decide (p ∈ present w)
    then Ret tt (emit Log ("Directory exists: " +:+ p) w)
    else match deny p with
         | None => Ret tt (emit Log ("Created directory: " +:+ p) (Fs.created p w))
         | Some msg =>
             Ret tt (emit Warn ("Could not create directory " +:+ p
                                +:+ ". Reason: " +:+ msg) (Fs.attempted p w))
         end.
Proof.
  unfold RevB.ensureDir, try_catch, bind, Fs.existsSync, Fs.mkdirSync, tell; simpl.
  destruct (bool_decide _); simpl; [done|].
  destruct (deny _); reflexivity.
Qed.

Lemma RevB_ensureDir_returns h deny dir w :
  threw (RevB.ensureDir h deny dir w) = false.
Proof.
  rewrite RevB_ensureDir_cases.
  destruct (bool_decide _); [done|]. destruct (deny _); done.
Qed.

Lemma try_catch_tell_returns (m : M unit) (t : error -> string) w :
  threw (try_catch m (fun err => tell Warn (t err)) w) = false.
Proof. unfold try_catch, tell. destruct (m w); done. Qed.

Lemma createIn_cases base deny dir w :
  createIn base deny dir w =
    if bool_decide (Path.join base dir ∈ present w) then Ret tt w
    else match deny (Path.join base dir) with
         | None => Ret tt (emit Log ("Created directory: " +:+ Path.join base dir)
                             (Fs.created (Path.join base dir) w))
         | Some msg => Throw (mkError msg None) (Fs.attempted (Path.join base dir) w)
         end.
Proof.
  unfold createIn, bind, Fs.existsSync, Fs.mkdirSync, tell, ret.
  destruct (bool_decide _); simpl; [done|]. by destruct (deny _).
Qed.

Lemma createDirectories_shape h deny :
  RevC.createDirectories h deny =
    try_catch (forEach requiredDirs (createIn (RevC.baseDir h) deny))
      (fun err => tell Warn ("Could not create directories: " +:+ message err))
  /\ RevE.createDirectories h deny =
    try_catch (forEach requiredDirs (createIn (RevE.baseDir h) deny))
      (fun err => tell Warn ("Could not create directories: " +:+ message err)).
Proof. split; reflexivity. Qed.

Lemma createIn_stops base deny d post msg : forall pre w w_pre,
  forEach pre (createIn base deny) w = Ret tt w_pre ->
  bool_decide (Path.join base d ∈ present w_pre) = false ->
  deny (Path.join base d) = Some msg ->
  forEach (pre ++ d :: post) (createIn base deny) w
  = Throw (mkError msg None) (Fs.attempted (Path.join base d) w_pre).
Proof.
  induction pre as [|x pre IH]; intros w w_pre Hpre Hp Hd.
  - injection Hpre as ->. cbn [app forEach]. unfold bind.
    by rewrite createIn_cases, Hp, Hd.
  - cbn [app forEach] in *. unfold bind in *.
    destruct (createIn base deny x w) as [[] w1|]; [|done]. by apply IH.
Qed.

Lemma createIn_made base deny : forall dirs w w1,
  forEach dirs (createIn base deny) w = Ret tt w1 ->
  exists made,
    mkdirs w1 = (mkdirs w ++ made)%list
    /\ Forall (fun p => In p (map (Path.join base) dirs)) made.
Proof.
  induction dirs as [|x dirs IH]; intros w w1 H.
  - injection H as ->. exists []. by rewrite app_nil_r.
  - cbn [forEach] in H. unfold bind in H. rewrite createIn_cases in H.
    destruct (bool_decide _).
    + destruct (IH _ _ H) as (made & Hm & Hall). exists made. split; [done|].
      eapply Forall_impl; [exact Hall|]. intros p Hin. by right.
    + destruct (deny _); [done|].
      destruct (IH _ _ H) as (made & Hm & Hall).
      exists (Path.join base x :: made). split.
      * rewrite Hm. simpl. by rewrite <- app_assoc.
      * constructor; [by left|].
        eapply Forall_impl; [exact Hall|]. intros p Hin. by right.
Qed.

(** What [createDirectories] does when area [d] is the first that is
    absent and refused: the areas before it were handled, the loop ends at
    [d], one warning is logged, and every [mkdirSync] call of the run was
    for [d] or an area before it. *)
Lemma createDirectories_stop base deny pre d post msg w w_pre :
  requiredDirs = (pre ++ d :: post)%list ->
  forEach pre (createIn base deny) w = Ret tt w_pre ->
  bool_decide (Path.join base d ∈ present w_pre) = false ->
  deny (Path.join base d) = Some msg ->
  try_catch (forEach requiredDirs (createIn base deny))
    (fun err => tell Warn ("Could not create directories: " +:+ message err)) w
  = Ret tt (emit Warn ("Could not create directories: " +:+ msg)
              (Fs.attempted (Path.join base d) w_pre))
  /\ exists made,
       mkdirs (Fs.attempted (Path.join base d) w_pre)
       = (mkdirs w ++ made ++ [Path.join base d])%list
       /\ Forall (fun p => In p (map (Path.join base) pre)) made.
Proof.
  intros Hsplit Hpre Hp Hd. split.
  - unfold try_catch. rewrite Hsplit.
    by rewrite (createIn_stops base deny d post msg pre w w_pre Hpre Hp Hd).
  - destruct (createIn_made base deny pre w w_pre Hpre) as (made & Hm & Hall).
    exists made. split; [|done]. simpl. by rewrite Hm, <- app_assoc.
Qed.

(** C5, counterexample: in [createDirectories] one refused area ends the
    loop; the two areas after it are never attempted although the host
    would have created them. *)
Lemma C5_createDirectories_stops_at_first_failure :
  let r := RevE.createDirectories hostProd denyUploads (fresh ∅ "") in
  threw r = false
  /\ mkdirs (world_of r) = ["/tmp/uploads"]
  /\ denyUploads "/tmp/whatsapp-auth" = None
  /\ denyUploads "/tmp/logs" = None
  /\ bool_decide ("/tmp/whatsapp-auth" ∈ present (world_of r)) = false
  /\ bool_decide ("/tmp/logs" ∈ present (world_of r)) = false
  /\ mkdirs (world_of (RevC.createDirectories hostProd denyUploads (fresh ∅ "")))
     = ["/tmp/uploads"]
  /\ mkdirs (world_of (RevB.ensureDirs hostProd
                         (fun p => if String.eqb p "/var/task/uploads"
                                   then Some "EROFS" else None) (fresh ∅ "")))
     = ["/var/task/uploads"; "/var/task/whatsapp-auth"; "/var/task/logs"].
Proof. vm_compute. repeat split. Qed.

(** C5, as amended: no revision lets a failed creation escape as an
    error, and the failure is logged as a warning; in the revision with a
    guard per area (RevB) every area is still processed in turn, each
    absent one getting its own [mkdirSync] call; in [createDirectories]
    (RevC, RevE) the first area that is absent and refused, whichever of
    the three it is, ends the loop: the areas after it are not attempted. *)
Theorem C5_directory_failures_contained (h : host) (deny : Fs.refusal) (w : world) :
  threw (RevB.ensureDirs h deny w) = false
  /\ threw (RevC.createDirectories h deny w) = false
  /\ threw (RevE.createDirectories h deny w) = false
  /\ (exists w1 w2 w3,
        RevB.ensureDir h deny "uploads" w = Ret tt w1
        /\ RevB.ensureDir h deny "whatsapp-auth" w1 = Ret tt w2
        /\ RevB.ensureDir h deny "logs" w2 = Ret tt w3
        /\ RevB.ensureDirs h deny w = Ret tt w3)
  /\ (forall dir v msg,
        bool_decide (RevB.dirPath h dir ∈ present v) = false ->
        deny (RevB.dirPath h dir) = Some msg ->
        RevB.ensureDir h deny dir v =
          Ret tt (emit Warn ("Could not create directory " +:+ RevB.dirPath h dir
                             +:+ ". Reason: " +:+ msg)
                    (Fs.attempted (RevB.dirPath h dir) v)))
  /\ (forall dir v,
        bool_decide (RevB.dirPath h dir ∈ present v) = false ->
        deny (RevB.dirPath h dir) = None ->
        RevB.ensureDir h deny dir v =
          Ret tt (emit Log ("Created directory: " +:+ RevB.dirPath h dir)
                    (Fs.created (RevB.dirPath h dir) v)))
  /\ (forall msg,
        bool_decide (Path.join (RevC.baseDir h) "uploads" ∈ present w) = false ->
        deny (Path.join (RevC.baseDir h) "uploads") = Some msg ->
        RevC.createDirectories h deny w =
          Ret tt (emit Warn ("Could not create directories: " +:+ msg)
                    (Fs.attempted (Path.join (RevC.baseDir h) "uploads") w)))
  /\ (forall msg,
        bool_decide (Path.join (RevE.baseDir h) "uploads" ∈ present w) = false ->
        deny (Path.join (RevE.baseDir h) "uploads") = Some msg ->
        RevE.createDirectories h deny w =
          Ret tt (emit Warn ("Could not create directories: " +:+ msg)
                    (Fs.attempted (Path.join (RevE.baseDir h) "uploads") w)))
  /\ (forall pre d post msg w_pre,
        requiredDirs = (pre ++ d :: post)%list ->
        forEach pre (createIn (RevC.baseDir h) deny) w = Ret tt w_pre ->
        bool_decide (Path.join (RevC.baseDir h) d ∈ present w_pre) = false ->
        deny (Path.join (RevC.baseDir h) d) = Some msg ->
        RevC.createDirectories h deny w =
          Ret tt (emit Warn ("Could not create directories: " +:+ msg)
                    (Fs.attempted (Path.join (RevC.baseDir h) d) w_pre))
        /\ exists made,
             mkdirs (world_of (RevC.createDirectories h deny w))
             = (mkdirs w ++ made ++ [Path.join (RevC.baseDir h) d])%list
             /\ Forall (fun p => In p (map (Path.join (RevC.baseDir h)) pre)) made)
  /\ (forall pre d post msg w_pre,
        requiredDirs = (pre ++ d :: post)%list ->
        forEach pre (createIn (RevE.baseDir h) deny) w = Ret tt w_pre ->
        bool_decide (Path.join (RevE.baseDir h) d ∈ present w_pre) = false ->
        deny (Path.join (RevE.baseDir h) d) = Some msg ->
        RevE.createDirectories h deny w =
          Ret tt (emit Warn ("Could not create directories: " +:+ msg)
                    (Fs.attempted (Path.join (RevE.baseDir h) d) w_pre))
        /\ exists made,
             mkdirs (world_of (RevE.createDirectories h deny w))
             = (mkdirs w ++ made ++ [Path.join (RevE.baseDir h) d])%list
             /\ Forall (fun p => In p (map (Path.join (RevE.baseDir h)) pre)) made).
Proof.
  split; [|split; [|split; [|split; [|split; [|split; [|split; [|split; [|split]]]]]]]].
  - apply forEach_guarded. intros; apply RevB_ensureDir_returns.
  - apply try_catch_tell_returns.
  - apply try_catch_tell_returns.
  - pose proof (RevB_ensureDir_returns h deny "uploads" w) as H1.
    destruct (RevB.ensureDir h deny "uploads" w) as [[] w1|] eqn:E1; [|done].
    pose proof (RevB_ensureDir_returns h deny "whatsapp-auth" w1) as H2.
    destruct (RevB.ensureDir h deny "whatsapp-auth" w1) as [[] w2|] eqn:E2; [|done].
    pose proof (RevB_ensureDir_returns h deny "logs" w2) as H3.
    destruct (RevB.ensureDir h deny "logs" w2) as [[] w3|] eqn:E3; [|done].
    exists w1, w2, w3. split; [done|]. split; [done|]. split; [done|].
    unfold RevB.ensureDirs, requiredDirs. cbn [forEach]. unfold bind, ret.
    by rewrite E1, E2, E3.
  - intros dir v msg Hp Hd. rewrite RevB_ensureDir_cases. simpl. by rewrite Hp, Hd.
  - intros dir v Hp Hd. rewrite RevB_ensureDir_cases. simpl. by rewrite Hp, Hd.
  - intros msg Hp Hd.
    unfold RevC.createDirectories, try_catch, requiredDirs. cbn [forEach].
    unfold bind, Fs.existsSync, Fs.mkdirSync, tell.
    by rewrite Hp, Hd.
  - intros msg Hp Hd.
    unfold RevE.createDirectories, try_catch, requiredDirs. cbn [forEach].
    unfold bind, Fs.existsSync, Fs.mkdirSync, tell.
    by rewrite Hp, Hd.
  - intros pre d post msg w_pre Hsplit Hpre Hp Hd.
    destruct (createDirectories_shape h deny) as [-> _].
    destruct (createDirectories_stop _ deny pre d post msg w w_pre Hsplit Hpre Hp Hd)
      as (Hrun & made & Hm & Hall).
    split; [exact Hrun|]. exists made. rewrite Hrun. by split.
  - intros pre d post msg w_pre Hsplit Hpre Hp Hd.
    destruct (createDirectories_shape h deny) as [_ ->].
    destruct (createDirectories_stop _ deny pre d post msg w w_pre Hsplit Hpre Hp Hd)
      as (Hrun & made & Hm & Hall).
    split; [exact Hrun|]. exists made. rewrite Hrun. by split.
Qed.

Lemma C5_directory_failures_contained_witness :
  RevB.ensureDir hostProd denyUploads "logs" (fresh ∅ "")
  = Ret tt (emit Log "Created directory: /var/task/logs"
              (Fs.created "/var/task/logs" (fresh ∅ "")))
  /\ RevE.createDirectories hostProd denyUploads (fresh ∅ "")
  = Ret tt (emit Warn
              "Could not create directories: EACCES: permission denied, mkdir '/tmp/uploads'"
              (Fs.attempted "/tmp/uploads" (fresh ∅ "")))
  /\ RevE.createDirectories hostProd denyAuth (fresh ∅ "")
  = Ret tt (emit Warn "Could not create directories: EROFS: read-only file system"
              (Fs.attempted "/tmp/whatsapp-auth"
                 (emit Log "Created directory: /tmp/uploads"
                    (Fs.created "/tmp/uploads" (fresh ∅ ""))))).
Proof.
  destruct (C5_directory_failures_contained hostProd denyUploads (fresh ∅ ""))
    as (_ & _ & _ & _ & _ & Hc & _ & He & _).
  destruct (C5_directory_failures_contained hostProd denyAuth (fresh ∅ ""))
    as (_ & _ & _ & _ & _ & _ & _ & _ & _ & Hg).
  split; [|split].
  - exact (Hc "logs" (fresh ∅ "") eq_refl eq_refl).
  - exact (He _ eq_refl eq_refl).
  - exact (proj1 (Hg ["uploads"] "whatsapp-auth" ["logs"] _ _
                    eq_refl eq_refl eq_refl eq_refl)).
Defined.

(** ** Connection acquisition (C1, C3, C9) *)

Lemma RevA_call_suspends h id (s : Loop.sys unit) :
  isConnected (Loop.sw s) = false ->
  JS.truthy (env h !! "MONGO_URI") = true ->
  Loop.call (RevA.connectToDatabase h) id s =
    Loop.mkSys (Mongoose.connectCalled (env h !! "MONGO_URI") (Loop.sw s))
               (Loop.waiting s ++ [(id, RevA.afterConnect)])
               (Loop.returned s).
Proof.
  intros Hc Hu. unfold Loop.call, RevA.connectToDatabase. by rewrite Hc, Hu.
Qed.

Lemma RevA_burst h n : forall from (s : Loop.sys unit),
  isConnected (Loop.sw s) = false ->
  JS.truthy (env h !! "MONGO_URI") = true ->
  let s' := Loop.burst (RevA.connectToDatabase h) from n s in
  connects (Loop.sw s') = (connects (Loop.sw s) ++ repeat (env h !! "MONGO_URI") n)%list
  /\ length (Loop.waiting s') = (length (Loop.waiting s) + n)%nat
  /\ Loop.returned s' = Loop.returned s
  /\ isConnected (Loop.sw s') = false.
Proof.
  induction n as [|n IH]; intros from s Hc Hu; simpl.
  - rewrite app_nil_r, Nat.add_0_r. done.
  - rewrite RevA_call_suspends by done.
    edestruct (IH (S from)) as (H1 & H2 & H3 & H4); [|exact Hu|].
    2:{ rewrite H1, H2, H3, H4. simpl.
        rewrite length_app. simpl. rewrite <- app_assoc. simpl.
        repeat split; lia. }
    exact Hc.
Qed.

(** C1, on RevA: [n] callers that invoke [connectToDatabase] before any
    attempt has settled each pass the [isConnected] test, because the flag
    is set only after the await; [mongoose.connect] is called [n] times
    and [n] attempts are pending. *)
Theorem C1_flag_allows_one_attempt_per_caller (h : host) (n : nat) (w : world) :
  isConnected w = false ->
  JS.truthy (env h !! "MONGO_URI") = true ->
  let s := Loop.burst (RevA.connectToDatabase h) 0 n (Loop.start w) in
  connects (Loop.sw s) = (connects w ++ repeat (env h !! "MONGO_URI") n)%list
  /\ length (Loop.waiting s) = n
  /\ Loop.returned s = [].
Proof.
  intros Hc Hu.
  destruct (RevA_burst h n 0 (Loop.start w) Hc Hu) as (H1 & H2 & H3 & _).
  auto.
Qed.

Lemma C1_flag_allows_one_attempt_per_caller_witness :
  connects (Loop.sw (Loop.burst (RevA.connectToDatabase hostDb) 0 2
                       (Loop.start (fresh ∅ ""))))
  = [Some "mongodb://db.example/gym"; Some "mongodb://db.example/gym"].
Proof.
  exact (proj1 (C1_flag_allows_one_attempt_per_caller hostDb 2 (fresh ∅ "")
                  eq_refl eq_refl)).
Defined.

(** RevD, while the first attempt is in progress: a request is dispatched
    and answered with the connection still in state 2. *)
Example RevD_request_served_while_connecting :
  let r := Express.serve (RevD.app hostDb deps1)
             (Express.mkRequest "GET" "/api/customers/7") connectingWorld in
  Express.reply r = customerOk
  /\ readyState (Express.final r) = Mongoose.connecting.
Proof. split; reflexivity. Qed.

(** C9: whenever [readyState] is not zero, [connectDatabase] of RevD
    returns at once and successfully, calls [mongoose.connect] not at all
    and leaves no caller waiting, and the gate calls [next()]; this holds
    in particular in state 2, while an attempt is still in progress. *)
Theorem C9_nonzero_readyState_passes (h : host) (d : deps)
  (req : Express.request) (w : world) (id : nat) (s : Loop.sys unit) :
  readyState w <> 0%Z ->
  Loop.sw s = w ->
  RevD.connectDatabase h w = Settled (Ret tt (emit Log "MongoDB already connected" w))
  /\ connects (emit Log "MongoDB already connected" w) = connects w
  /\ readyState (emit Log "MongoDB already connected" w) = readyState w
  /\ RevD.dbGate h d req w = (emit Log "MongoDB already connected" w, Express.Next)
  /\ Loop.call (RevD.connectDatabase h) id s =
       Loop.mkSys (emit Log "MongoDB already connected" w)
                  (Loop.waiting s) (Loop.returned s ++ [(id, Fulfilled tt)]).
Proof.
  intros Hr Hs.
  assert (H : RevD.connectDatabase h w =
              Settled (Ret tt (emit Log "MongoDB already connected" w))).
  { unfold RevD.connectDatabase.
    destruct (Z.eqb_spec (readyState w) 0); [done|reflexivity]. }
  repeat split; try done.
  - unfold RevD.dbGate. by rewrite H.
  - unfold Loop.call. by rewrite Hs, H.
Qed.

Lemma C9_nonzero_readyState_passes_witness :
  readyState connectingWorld = Mongoose.connecting
  /\ RevD.dbGate hostDb deps0 (Express.mkRequest "GET" "/api/customers") connectingWorld
     = (emit Log "MongoDB already connected" connectingWorld, Express.Next).
Proof.
  split; [reflexivity|].
  exact (proj1 (proj2 (proj2 (proj2
    (C9_nonzero_readyState_passes hostDb deps0
       (Express.mkRequest "GET" "/api/customers") connectingWorld 0
       (Loop.start connectingWorld) ltac:(discriminate) eq_refl))))).
Defined.

(** C3, counterexample: in production mode with no MONGO_URI, RevE calls
    [mongoose.connect] with the built-in local URI, and the attempt
    succeeds if a server answers there. *)
Lemma C3_default_uri_in_production :
  RevE.isProduction hostProd = true
  /\ env hostProd !! "MONGO_URI" = None
  /\ RevE.connectDatabase hostProd (fresh ∅ "") =
       Pending (Some "mongodb://localhost:27017/gym_management")
         (Mongoose.connectCalled (Some "mongodb://localhost:27017/gym_management")
            (fresh ∅ ""))
         Common.afterConnect
  /\ threw (awaitNow (fun _ => None) (RevE.connectDatabase hostProd (fresh ∅ ""))) = false.
Proof. repeat split. Qed.

(** C3, as amended: with no (or an empty) MONGO_URI, [connectToDatabase]
    of RevA throws "MONGO_URI environment variable is not set." without
    calling [mongoose.connect], the gate answers 500, and the flag stays
    unset so that a later call with a URI does connect; [connectDatabase]
    of RevB, RevC and RevE instead connects to the built-in local URI, in
    every mode. *)
Theorem C3_missing_uri (h : host) (d : deps) (req : Express.request) (w : world) :
  JS.truthy (env h !! "MONGO_URI") = false ->
  isConnected w = false ->
  let w' := emit Err "MongoDB Connection Error: MONGO_URI environment variable is not set." w in
  RevA.connectToDatabase h w = Settled (Throw RevA.missingUri w')
  /\ connects w' = connects w
  /\ isConnected w' = false
  /\ RevA.dbGate h d req w = (w', Express.Respond Common.gateFailure)
  /\ (forall h2, JS.truthy (env h2 !! "MONGO_URI") = true ->
        RevA.connectToDatabase h2 w' =
          Pending (env h2 !! "MONGO_URI")
                  (Mongoose.connectCalled (env h2 !! "MONGO_URI") w')
                  RevA.afterConnect)
  /\ RevB.connectDatabase h w =
       Pending (Some Common.defaultUri)
               (Mongoose.connectCalled (Some Common.defaultUri) w) Common.afterConnect
  /\ RevC.connectDatabase h w =
       Pending (Some Common.defaultUri)
               (Mongoose.connectCalled (Some Common.defaultUri) w) Common.afterConnect
  /\ RevE.connectDatabase h w =
       Pending (Some Common.defaultUri)
               (Mongoose.connectCalled (Some Common.defaultUri) w) Common.afterConnect.
Proof.
  intros Hu Hc w'.
  assert (H : RevA.connectToDatabase h w = Settled (Throw RevA.missingUri w')).
  { unfold RevA.connectToDatabase. by rewrite Hc, Hu. }
  assert (Hd : JS.or_default (env h !! "MONGO_URI") Common.defaultUri = Common.defaultUri).
  { by apply or_default_falsy. }
  repeat split; try done.
  - unfold RevA.dbGate. by rewrite H.
  - intros h2 H2. unfold RevA.connectToDatabase. simpl. by rewrite Hc, H2.
  - unfold RevB.connectDatabase, Common.connectDatabaseWithDefault. by rewrite Hd.
  - unfold RevC.connectDatabase, Common.connectDatabaseWithDefault. by rewrite Hd.
  - unfold RevE.connectDatabase, Common.connectDatabaseWithDefault. by rewrite Hd.
Qed.

Lemma C3_missing_uri_witness :
  RevA.connectToDatabase hostProd (fresh ∅ "") =
    Settled (Throw RevA.missingUri
      (emit Err "MongoDB Connection Error: MONGO_URI environment variable is not set."
         (fresh ∅ ""))).
Proof.
  exact (proj1 (C3_missing_uri hostProd deps0 (Express.mkRequest "GET" "/health")
                  (fresh ∅ "") eq_refl eq_refl)).
Defined.

(** ** The walk over the stack *)

Lemma handle_trace_extends ls : forall err req w tr,
  exists rest, Express.trace (Express.handle ls err req w tr) = (tr ++ rest)%list.
Proof.
  induction ls as [|l ls IH]; intros err req w tr; simpl.
  - exists []. rewrite app_nil_r. by destruct err.
  - destruct (Express.matches _ req); [|apply IH].
    destruct err as [e|], (Express.fn l) as [f|f]; try apply IH.
    + destruct (f e req w) as [w' [r| |e']].
      * by exists [Express.name l].
      * destruct (IH None req w' (tr ++ [Express.name l])%list) as [rest ->].
        exists (Express.name l :: rest). by rewrite <- app_assoc.
      * destruct (IH (Some e') req w' (tr ++ [Express.name l])%list) as [rest ->].
        exists (Express.name l :: rest). by rewrite <- app_assoc.
    + destruct (f req w) as [w' [r| |e']].
      * by exists [Express.name l].
      * destruct (IH None req w' (tr ++ [Express.name l])%list) as [rest ->].
        exists (Express.name l :: rest). by rewrite <- app_assoc.
      * destruct (IH (Some e') req w' (tr ++ [Express.name l])%list) as [rest ->].
        exists (Express.name l :: rest). by rewrite <- app_assoc.
Qed.

(** A pending error passes over request functions untouched. *)
Lemma handle_error_over_reqfns ls : forall e req w tr,
  Forall isReqFn ls ->
  Express.handle ls (Some e) req w tr = Express.finalhandler (Some e) w tr.
Proof.
  induction ls as [|l ls IH]; intros e req w tr Hall; simpl; [done|].
  inversion Hall as [|? ? Hl Hls]; subst. unfold isReqFn in Hl.
  destruct (Express.matches _ req); [|by apply IH].
  destruct (Express.fn l); [by apply IH|done].
Qed.

(** A pending error that meets the global handler first is answered by it. *)
Lemma handle_error_reaches ls : forall e req w tr,
  errorsReach ls ->
  Express.handle ls (Some e) req w tr =
    Express.mkResult (emit Err ("Global error: " +:+ message e) w)
      (tr ++ ["globalError"])%list
      (Express.mkResponse (Common.statusOr500 e) (Express.Json (errorBody e w))).
Proof.
  induction ls as [|l ls IH]; intros e req w tr Hr; simpl in *; [done|].
  destruct (Express.fn l) as [f|f] eqn:Hf.
  - destruct (Express.matches _ req); by apply IH.
  - destruct Hr as (Hn & Hroute & Hfn). rewrite Hroute. simpl.
    rewrite Hf in Hfn. injection Hfn as ->. by rewrite Hn.
Qed.

Lemma handle_passThrough pre post req : forall w w' tr,
  passThrough pre req w = Some w' ->
  exists tr',
    Express.handle (pre ++ post) None req w tr = Express.handle post None req w' tr'.
Proof.
  induction pre as [|l pre IH]; intros w w' tr H; simpl in *.
  - injection H as ->. by exists tr.
  - destruct (Express.matches _ req); [|by apply IH].
    destruct (Express.fn l) as [f|f]; [|by apply IH].
    destruct (f req w) as [w1 [r| |e]]; [done| |done]. by apply IH.
Qed.

Lemma not_in_snoc (g x : string) (tr : list string) :
  g ∉ tr -> x <> g -> g ∉ (tr ++ [x])%list.
Proof.
  intros Htr Hx. rewrite not_elem_of_app. split; [done|].
  rewrite list_elem_of_singleton. congruence.
Qed.

(** Nothing registered after a catch-all that always answers runs, unless
    it is an error handler. *)
Lemma unreachable_behind_catch_all g pre t f post :
  Forall (fun l => Express.name l <> g) pre ->
  Express.name t <> g ->
  Express.route t = Express.Always ->
  Express.fn t = Express.ReqFn f ->
  (forall req w, exists r, snd (f req w) = Express.Respond r) ->
  (forall e req w tr, g ∉ tr -> g ∉ Express.trace (Express.handle post (Some e) req w tr)) ->
  forall err req w tr,
    g ∉ tr -> g ∉ Express.trace (Express.handle (pre ++ t :: post) err req w tr).
Proof.
  intros Hpre Ht Hroute Hfn Hf Hpost.
  induction pre as [|l pre IH]; intros err req w tr Htr.
  - simpl. rewrite Hroute, Hfn. simpl. destruct err as [e|]; [by apply Hpost|].
    destruct (Hf req w) as [r Hr]. destruct (f req w) as [w' o]. simpl in Hr.
    subst o. simpl. by apply not_in_snoc.
  - inversion Hpre as [|? ? Hl Hrest]; subst. specialize (IH Hrest).
    assert (Htr' : g ∉ (tr ++ [Express.name l])%list) by (by apply not_in_snoc).
    simpl. destruct (Express.matches _ req); [|by apply IH].
    destruct err as [e|], (Express.fn l) as [h|h]; try by apply IH.
    + destruct (h e req w) as [w' [r| |e']]; [done|by apply IH..].
    + destruct (h req w) as [w' [r| |e']]; [done|by apply IH..].
Qed.

(** ** Readiness gate (C2) *)

Lemma RevA_all_reqfns h d : Forall isReqFn (RevA.app h d).
Proof. unfold RevA.app. repeat constructor. Qed.

Lemma RevA_gate_never_runs h d req w :
  "dbGate" ∉ Express.trace (Express.serve (RevA.app h d) req w).
Proof.
  unfold Express.serve.
  change (RevA.app h d) with
    (upTo "notFound" (RevA.app h d)
     ++ Express.mkLayer "notFound" Express.Always (Express.ReqFn RevA.notFound)
     :: after "notFound" (RevA.app h d))%list.
  eapply unreachable_behind_catch_all; try reflexivity; try discriminate.
  - simpl. repeat constructor; discriminate.
  - intros rq v. by eexists.
  - intros e rq v tr Htr. rewrite handle_error_over_reqfns; [done|].
    simpl. repeat constructor.
  - apply not_elem_of_nil.
Qed.

Lemma RevD_gate_never_runs h d req w :
  "dbGate" ∉ Express.trace (Express.serve (RevD.app h d) req w).
Proof.
  unfold Express.serve.
  change (RevD.app h d) with
    (upTo "notFound" (RevD.app h d)
     ++ Express.mkLayer "notFound" Express.Always (Express.ReqFn Common.notFound)
     :: after "notFound" (RevD.app h d))%list.
  eapply unreachable_behind_catch_all; try reflexivity; try discriminate.
  - simpl. repeat constructor; discriminate.
  - intros rq v. by eexists.
  - intros e rq v tr Htr. rewrite handle_error_reaches; [|simpl; done].
    simpl. by apply not_in_snoc.
  - apply not_elem_of_nil.
Qed.

(** C2, on the code: in both revisions that have a readiness gate it is
    registered after the routes and after the catch-all not-found
    handler, so no request ever reaches it; with no database answering,
    GET /api/customers/7 is dispatched to the customer routes and answered
    by them, and [mongoose.connect] is never called. *)
Theorem C2_gate_is_registered_last (h : host) (d : deps)
  (req : Express.request) (w : world) :
  ("dbGate" ∉ Express.trace (Express.serve (RevA.app h d) req w))
  /\ ("dbGate" ∉ Express.trace (Express.serve (RevD.app h d) req w))
  /\ (let r := Express.serve (RevA.app hostDb deps1)
                 (Express.mkRequest "GET" "/api/customers/7") (fresh ∅ clock) in
      Express.trace r = ["cors"; "express.json"; "express.urlencoded"; "logger";
                         "/api/customers customerRoutes"]
      /\ Express.reply r = customerOk
      /\ connects (Express.final r) = []
      /\ RevA.dbGate hostDb deps1 (Express.mkRequest "GET" "/api/customers/7")
           (fresh ∅ clock)
         = (emit Err "MongoDB Connection Error: connect ECONNREFUSED"
              (Mongoose.settled (Some (mkError "connect ECONNREFUSED" None))
                 (Mongoose.connectCalled (Some "mongodb://db.example/gym")
                    (fresh ∅ clock))),
            Express.Respond Common.gateFailure))
  /\ (let r := Express.serve (RevD.app hostDb deps1)
                 (Express.mkRequest "GET" "/api/customers/7") (fresh ∅ clock) in
      Express.trace r = ["cors"; "express.json"; "express.urlencoded"; "logger";
                         "/api/customers customerRoutes"]
      /\ Express.reply r = customerOk
      /\ connects (Express.final r) = []).
Proof.
  split; [apply RevA_gate_never_runs|].
  split; [apply RevD_gate_never_runs|].
  split; vm_compute; repeat split.
Qed.

(** ** Prefixes *)

Lemma stripPrefix_Some pre : forall s rem,
  Express.stripPrefix pre s = Some rem -> s = pre +:+ rem.
Proof.
  induction pre as [|a pre IH]; intros s rem H; simpl in *.
  - by injection H as ->.
  - destruct s as [|b s]; [done|].
    destruct (Ascii.eqb_spec a b) as [->|]; [|done].
    by rewrite (IH _ _ H).
Qed.

Lemma underPrefix_inv pre path :
  Express.underPrefix pre path = true ->
  exists rem, Express.lower path = pre +:+ rem.
Proof.
  unfold Express.underPrefix. intros H.
  destruct (Express.stripPrefix pre (Express.lower path)) as [rem|] eqn:E; [|done].
  exists rem. by apply stripPrefix_Some.
Qed.

Lemma stripPrefix_append a b : forall s rem,
  Express.stripPrefix (a +:+ b) s = Some rem ->
  Express.stripPrefix a s = Some (b +:+ rem).
Proof.
  induction a as [|c a IH]; intros s rem H; simpl in *.
  - by rewrite (stripPrefix_Some b s rem H).
  - destruct s as [|c' s]; [done|]. destruct (Ascii.eqb c c'); [by apply IH|done].
Qed.

Lemma under_longer_prefix (sub path : string) :
  Express.underPrefix ("/api" +:+ String Path.slash sub) path = true ->
  Express.underPrefix "/api" path = true.
Proof.
  unfold Express.underPrefix. intros H.
  destruct (Express.stripPrefix _ (Express.lower path)) as [rem|] eqn:E; [|done].
  by rewrite (stripPrefix_append "/api" _ _ _ E).
Qed.

Lemma handle_call l rest f req w tr :
  Express.fn l = Express.ReqFn f ->
  Express.matches (Express.route l) req = true ->
  Express.handle (l :: rest) None req w tr =
    match f req w with
    | (w', Express.Respond r) => Express.mkResult w' (tr ++ [Express.name l])%list r
    | (w', Express.Next) => Express.handle rest None req w' (tr ++ [Express.name l])%list
    | (w', Express.Raise e) =>
        Express.handle rest (Some e) req w' (tr ++ [Express.name l])%list
    end.
Proof. intros Hfn Hm. cbn [Express.handle]. by rewrite Hm, Hfn. Qed.

Lemma whatsapp_only (path : string) :
  Express.underPrefix "/api/whatsapp" path = true ->
  Express.underPrefix "/api/customers" path = false
  /\ Express.underPrefix "/api/attendance" path = false
  /\ Express.underPrefix "/api/reports" path = false
  /\ Express.underPrefix "/api" path = true.
Proof.
  intros H. destruct (underPrefix_inv _ _ H) as [rem Hp].
  split; [|split; [|split]].
  - unfold Express.underPrefix. by rewrite Hp.
  - unfold Express.underPrefix. by rewrite Hp.
  - unfold Express.underPrefix. by rewrite Hp.
  - by apply (under_longer_prefix "whatsapp").
Qed.

(** ** Routing precedence (C6) *)

Example whatsapp_status_first_match :
  Express.firstMatch (Common.routeTable deps0)
    (Express.mkRequest "GET" "/api/whatsapp/status") = Some 0%nat.
Proof. reflexivity. Qed.

Example whatsapp_mixed_case_and_query :
  Express.firstMatch (Common.routeTable deps0)
    (Express.mkRequest "POST" "/API/WhatsApp/send-message?dry=1") = Some 0%nat.
Proof. reflexivity. Qed.

(** A prefix matches whole path components only. *)
Example longer_component_goes_to_legacy :
  Express.firstMatch (Common.routeTable deps0)
    (Express.mkRequest "GET" "/api/whatsappx/status") = Some 4%nat.
Proof. reflexivity. Qed.

Example customers_first_match :
  Express.firstMatch (Common.routeTable deps0)
    (Express.mkRequest "GET" "/api/customers/7") = Some 1%nat.
Proof. reflexivity. Qed.

Example legacy_first_match :
  Express.firstMatch (Common.routeTable deps0)
    (Express.mkRequest "GET" "/api/members") = Some 4%nat.
Proof. reflexivity. Qed.

(** C6, counterexample: the whatsapp routes hand GET
    /api/whatsapp/status on with [next()]; the request then matches the
    legacy /api mount of the customer routes, which answer it. *)
Lemma C6_legacy_mount_after_next :
  let req := Express.mkRequest "GET" "/api/whatsapp/status" in
  let r := Express.serve (RevE.app hostBare deps1) req (fresh ∅ clock) in
  Express.matches (Express.Use "/api/whatsapp") req = true
  /\ whatsappRoutes deps1 req (fresh ∅ clock) = (fresh ∅ clock, Express.Next)
  /\ Express.trace r
     = ["cors"; "express.json"; "express.urlencoded"; "logger";
        "/api/whatsapp whatsappRoutes"; "/api customerRoutes"]
  /\ Express.reply r = customerOk.
Proof. repeat split. Qed.

(** C6, as amended: for a request whose path is /api/whatsapp or lies
    below it, the first mount that matches, in registration order, is the
    canonical /api/whatsapp mount; the legacy /api mounts come after all
    canonical ones in every revision, so the whatsapp routes are the first
    handler group to run.  When they answer or raise, no legacy mount
    runs; when they hand the request on with [next()], the remaining
    canonical mounts do not match and the request goes to the legacy
    mounts, the customer routes first. *)
Theorem C6_canonical_mount_first (h : host) (d : deps) (req : Express.request)
  (w : world) (tr : list string) :
  Express.matches (Express.Use "/api/whatsapp") req = true ->
  Express.firstMatch (Common.routeTable d) req = Some 0%nat
  /\ Common.routeTable d !! 0%nat =
       Some (Express.mkLayer "/api/whatsapp whatsappRoutes"
               (Express.Use "/api/whatsapp") (Express.ReqFn (whatsappRoutes d)))
  /\ Common.routeTable d = (Common.canonicalMounts d ++ Common.legacyMounts d)%list
  /\ (exists rest,
        Express.trace (Express.handle (Common.routeTable d) None req w tr)
        = (tr ++ "/api/whatsapp whatsappRoutes" :: rest)%list)
  /\ (forall w' r,
        whatsappRoutes d req w = (w', Express.Respond r) ->
        Express.handle (Common.routeTable d) None req w tr
        = Express.mkResult w' (tr ++ ["/api/whatsapp whatsappRoutes"])%list r)
  /\ (forall w' e,
        whatsappRoutes d req w = (w', Express.Raise e) ->
        Express.handle (Common.routeTable d) None req w tr
        = Express.finalhandler (Some e) w' (tr ++ ["/api/whatsapp whatsappRoutes"])%list)
  /\ (forall w',
        whatsappRoutes d req w = (w', Express.Next) ->
        Express.handle (Common.routeTable d) None req w tr
        = Express.handle (Common.legacyMounts d) None req w'
            (tr ++ ["/api/whatsapp whatsappRoutes"])%list
        /\ Express.firstMatch (Common.legacyMounts d) req = Some 0%nat
        /\ exists rest,
             Express.trace (Express.handle (Common.routeTable d) None req w tr)
             = (tr ++ "/api/whatsapp whatsappRoutes" :: "/api customerRoutes" :: rest)%list)
  /\ (exists pre post, RevA.app h d = (pre ++ Common.routeTable d ++ post)%list)
  /\ (exists pre post, RevB.app h d = (pre ++ Common.routeTable d ++ post)%list)
  /\ (exists pre post, RevC.app h d = (pre ++ Common.routeTable d ++ post)%list)
  /\ (exists pre post, RevD.app h d = (pre ++ Common.routeTable d ++ post)%list)
  /\ (exists pre post, RevE.app h d = (pre ++ Common.routeTable d ++ post)%list).
Proof.
  intros Hm.
  assert (Hm' : Express.underPrefix "/api/whatsapp" (Express.pathname (Express.url req)) = true)
    by exact Hm.
  split; [by simpl; rewrite Hm'|].
  split; [reflexivity|].
  split; [reflexivity|].
  assert (Hstep : forall rest,
            Express.handle
              (Express.mkLayer "/api/whatsapp whatsappRoutes"
                 (Express.Use "/api/whatsapp") (Express.ReqFn (whatsappRoutes d)) :: rest)
              None req w tr =
            match whatsappRoutes d req w with
            | (w', Express.Respond r) =>
                Express.mkResult w' (tr ++ ["/api/whatsapp whatsappRoutes"])%list r
            | (w', Express.Next) =>
                Express.handle rest None req w' (tr ++ ["/api/whatsapp whatsappRoutes"])%list
            | (w', Express.Raise e) =>
                Express.handle rest (Some e) req w' (tr ++ ["/api/whatsapp whatsappRoutes"])%list
            end).
  { intros rest. cbn [Express.handle Express.route Express.fn Express.name Express.matches].
    by rewrite Hm'. }
  unfold Common.routeTable, Common.canonicalMounts. cbn [app]. rewrite Hstep.
  split.
  { destruct (whatsappRoutes d req w) as [w' [r| |e]].
    - by exists [].
    - match goal with |- exists _, Express.trace (Express.handle ?ls ?err _ _ ?t) = _ =>
        destruct (handle_trace_extends ls err req w' t) as [rest ->] end.
      exists rest. by rewrite <- app_assoc.
    - match goal with |- exists _, Express.trace (Express.handle ?ls ?err _ _ ?t) = _ =>
        destruct (handle_trace_extends ls err req w' t) as [rest ->] end.
      exists rest. by rewrite <- app_assoc. }
  split.
  { intros w' r Hr. by rewrite Hr. }
  split.
  { intros w' e Hr. rewrite Hr. apply handle_error_over_reqfns. repeat constructor. }
  split.
  { intros w' Hr. rewrite Hr.
    destruct (whatsapp_only _ Hm') as (Hc1 & Hc2 & Hc3 & Hapi).
    assert (Hleg : Express.handle
                     (Express.mkLayer "/api/customers customerRoutes"
                        (Express.Use "/api/customers") (Express.ReqFn (customerRoutes d))
                      :: Express.mkLayer "/api/attendance attendanceRoutes"
                           (Express.Use "/api/attendance")
                           (Express.ReqFn (attendanceRoutes d))
                      :: Express.mkLayer "/api/reports reportRoutes"
                           (Express.Use "/api/reports") (Express.ReqFn (reportRoutes d))
                      :: Common.legacyMounts d)
                     None req w' (tr ++ ["/api/whatsapp whatsappRoutes"])%list
                   = Express.handle (Common.legacyMounts d) None req w'
                       (tr ++ ["/api/whatsapp whatsappRoutes"])%list).
    { cbn [Express.handle Express.route Express.matches]. by rewrite Hc1, Hc2, Hc3. }
    rewrite Hleg. split; [reflexivity|].
    split; [unfold Common.legacyMounts; cbn [Express.firstMatch Express.route Express.matches];
            by rewrite Hapi|].
    unfold Common.legacyMounts.
    rewrite (handle_call
               (Express.mkLayer "/api customerRoutes" (Express.Use "/api")
                  (Express.ReqFn (customerRoutes d)))
               _ (customerRoutes d) req w' _ eq_refl Hapi).
    cbn [Express.name].
    destruct (customerRoutes d req w') as [w'' [r| |e]].
    - exists []. cbn. by rewrite <- app_assoc.
    - match goal with |- exists _, Express.trace (Express.handle ?ls ?err _ _ ?t) = _ =>
        destruct (handle_trace_extends ls err req w'' t) as [rest ->] end.
      exists rest. by rewrite <- !app_assoc.
    - match goal with |- exists _, Express.trace (Express.handle ?ls ?err _ _ ?t) = _ =>
        destruct (handle_trace_extends ls err req w'' t) as [rest ->] end.
      exists rest. by rewrite <- !app_assoc. }
  split; [by eexists _, _|].
  split; [by eexists _, _|].
  split.
  { unfold RevC.app.
    eexists ([_; _; _] ++ RevC.staticLayer h d ++ [_])%list, _.
    by rewrite <- !app_assoc. }
  split; [by eexists _, _|].
  unfold RevE.app.
  eexists ([_; _; _] ++ RevE.staticLayer h d ++ [_])%list, _.
  by rewrite <- !app_assoc.
Qed.

Lemma C6_canonical_mount_first_witness :
  Express.firstMatch (Common.routeTable deps1)
    (Express.mkRequest "GET" "/api/whatsapp/status") = Some 0%nat.
Proof.
  exact (proj1 (C6_canonical_mount_first hostBare deps1
                  (Express.mkRequest "GET" "/api/whatsapp/status")
                  (fresh ∅ clock) [] eq_refl)).
Defined.

(** ** Error normalisation (C7) *)

(** C7, on RevA: its error handler declares three parameters, so Express
    does not treat it as one; an error raised by any layer passes over
    every remaining layer and is answered by Express's own final handler,
    with the error's status but an HTML page for a body. *)
Theorem C7_misdeclared_handler_is_skipped (h : host) (d : deps)
  (pre post : list Express.layer) (l : Express.layer) (f : Express.handler)
  (req : Express.request) (w w' : world) (e : error) (tr : list string) :
  RevA.app h d = (pre ++ l :: post)%list ->
  Express.fn l = Express.ReqFn f ->
  Express.matches (Express.route l) req = true ->
  f req w = (w', Express.Raise e) ->
  status e = Some 403%Z ->
  Express.handle (l :: post) None req w tr =
    Express.mkResult w' (tr ++ [Express.name l])%list
      (Express.mkResponse 403 Express.FinalHandlerPage).
Proof.
  intros Happ Hfn Hm Hf Hs. simpl. rewrite Hm, Hfn, Hf.
  rewrite handle_error_over_reqfns.
  - unfold Express.finalhandler, Express.finalStatus. by rewrite Hs.
  - pose proof (RevA_all_reqfns h d) as Hall. rewrite Happ in Hall.
    apply Forall_app in Hall as [_ Hall]. by inversion Hall.
Qed.

Lemma C7_misdeclared_handler_is_skipped_witness :
  Express.handle
    (Express.mkLayer "/api/reports reportRoutes" (Express.Use "/api/reports")
       (Express.ReqFn (reportRoutes deps1))
     :: after "/api/reports reportRoutes" (RevA.app hostDb deps1))
    None (Express.mkRequest "GET" "/api/reports/monthly") (fresh ∅ clock) []
  = Express.mkResult (fresh ∅ clock) ["/api/reports reportRoutes"]
      (Express.mkResponse 403 Express.FinalHandlerPage).
Proof.
  exact (C7_misdeclared_handler_is_skipped hostDb deps1
           (upTo "/api/reports reportRoutes" (RevA.app hostDb deps1))
           (after "/api/reports reportRoutes" (RevA.app hostDb deps1))
           _ _ (Express.mkRequest "GET" "/api/reports/monthly")
           (fresh ∅ clock) (fresh ∅ clock) forbidden []
           eq_refl eq_refl eq_refl eq_refl eq_refl).
Defined.

(** The same request end to end: RevA answers with the final handler's
    page, RevE with the uniform JSON body. *)
Example forbidden_report_end_to_end :
  Express.reply (Express.serve (RevA.app hostDb deps1)
                   (Express.mkRequest "GET" "/api/reports/monthly") (fresh ∅ clock))
  = Express.mkResponse 403 Express.FinalHandlerPage
  /\ Express.reply (Express.serve (RevE.app hostDb deps1)
                      (Express.mkRequest "GET" "/api/reports/monthly") (fresh ∅ clock))
  = Express.mkResponse 403 (Express.Json (Express.JObj
      [ ("success", Express.JBool false);
        ("message", Express.JStr "Forbidden");
        ("timestamp", Express.JStr clock) ])).
Proof. split; reflexivity. Qed.

Lemma split_before_last {A} (body : list A) (g : A) : forall pre l post,
  (body ++ [g])%list = (pre ++ l :: post)%list ->
  (post = [] /\ l = g /\ pre = body)
  \/ (exists post', post = (post' ++ [g])%list /\ body = (pre ++ l :: post')%list).
Proof.
  induction body as [|b body IH]; intros pre l post H.
  - destruct pre as [|p pre]; simpl in H.
    + injection H as <- <-. by left.
    + injection H as _ H. by destruct pre.
  - destruct pre as [|p pre]; simpl in H.
    + injection H as <- <-. right. by exists body.
    + injection H as <- H. destruct (IH _ _ _ H) as [(-> & -> & ->)|(post' & -> & ->)].
      * by left.
      * right. by exists post'.
Qed.

Lemma errorsReach_behind_reqfns ls g tail :
  Forall isReqFn ls -> isGlobalError g -> errorsReach (ls ++ g :: tail).
Proof.
  intros Hls Hg. induction ls as [|l ls IH]; simpl.
  - destruct Hg as (? & ? & Hfn). rewrite Hfn. by repeat split.
  - inversion Hls as [|? ? Hl Hrest]; subst. unfold isReqFn in Hl.
    destruct (Express.fn l); [by apply IH|done].
Qed.

Lemma raise_is_normalised (l : Express.layer) (post : list Express.layer)
  (f : Express.handler) (req : Express.request) (w w' : world) (e : error)
  (tr : list string) :
  Express.fn l = Express.ReqFn f ->
  Express.matches (Express.route l) req = true ->
  f req w = (w', Express.Raise e) ->
  errorsReach post ->
  Express.handle (l :: post) None req w tr =
    Express.mkResult (emit Err ("Global error: " +:+ message e) w')
      ((tr ++ [Express.name l]) ++ ["globalError"])%list
      (Express.mkResponse (Common.statusOr500 e) (Express.Json (errorBody e w'))).
Proof.
  intros Hfn Hm Hf Hpost. simpl. rewrite Hm, Hfn, Hf.
  by apply handle_error_reaches.
Qed.

Lemma reqfns_then_global_split body g pre l post f :
  Forall isReqFn body -> isGlobalError g ->
  (body ++ [g])%list = (pre ++ l :: post)%list ->
  Express.fn l = Express.ReqFn f ->
  errorsReach post.
Proof.
  intros Hbody Hg Hsplit Hfn.
  destruct (split_before_last _ _ _ _ _ Hsplit) as [(_ & -> & _)|(post' & -> & ->)].
  - destruct Hg as (_ & _ & Hg). congruence.
  - apply errorsReach_behind_reqfns; [|done].
    apply Forall_app in Hbody as [_ Hbody]. by inversion Hbody.
Qed.

Lemma globalError_layer_ok :
  isGlobalError (Express.mkLayer "globalError" Express.Always
                   (Express.ErrFn Common.globalError)).
Proof. by repeat split. Qed.

Lemma RevD_gate_never_raises h d req w w' e :
  RevD.dbGate h d req w <> (w', Express.Raise e).
Proof.
  unfold RevD.dbGate. by destruct (awaitNow _ _).
Qed.

Ltac split_at_global Hsplit Hfn :=
  match type of Hsplit with
  | ?ls = (?pre ++ ?l :: ?post)%list =>
      eapply (reqfns_then_global_split (upTo "globalError" ls)
                (Express.mkLayer "globalError" Express.Always
                   (Express.ErrFn Common.globalError)) pre l post);
      [ simpl; repeat constructor
      | apply globalError_layer_ok
      | exact Hsplit
      | exact Hfn ]
  end.

(** In RevB to RevE an error raised by any layer, with status 403, gets
    status 403 and the body { success: false, message, timestamp }. *)
Lemma error_with_403_is_normalised (h : host) (d : deps)
  (stack pre post : list Express.layer) (l : Express.layer) (f : Express.handler)
  (req : Express.request) (w w' : world) (e : error) (tr : list string) :
  stack = RevB.app h d \/ stack = RevC.app h d
  \/ stack = RevD.app h d \/ stack = RevE.app h d ->
  stack = (pre ++ l :: post)%list ->
  Express.fn l = Express.ReqFn f ->
  Express.matches (Express.route l) req = true ->
  f req w = (w', Express.Raise e) ->
  status e = Some 403%Z ->
  Express.reply (Express.handle (l :: post) None req w tr) =
    Express.mkResponse 403 (Express.Json (Express.JObj
      [ ("success", Express.JBool false);
        ("message", Express.JStr (Common.messageOrDefault e));
        ("timestamp", Express.JStr (isoNow w')) ])).
Proof.
  intros Hstack Hsplit Hfn Hm Hf Hs.
  assert (H403 : Common.statusOr500 e = 403%Z).
  { unfold Common.statusOr500. by rewrite Hs. }
  enough (errorsReach post) as Hreach.
  { rewrite (raise_is_normalised l post f req w w' e tr Hfn Hm Hf Hreach).
    simpl. by rewrite H403. }
  destruct Hstack as [-> | [-> | [-> | ->]]].
  - split_at_global Hsplit Hfn.
  - unfold RevC.app, RevC.staticLayer in Hsplit.
    destruct (RevC.isProduction h); split_at_global Hsplit Hfn.
  - change (RevD.app h d) with
      ((upTo "dbGate" (RevD.app h d))
       ++ [Express.mkLayer "dbGate" Express.Always (Express.ReqFn (RevD.dbGate h d))])%list
      in Hsplit.
    destruct (split_before_last _ _ _ _ _ Hsplit) as [(_ & -> & _)|(post' & -> & Hb)].
    + simpl in Hfn. injection Hfn as <-. by apply RevD_gate_never_raises in Hf.
    + assert (errorsReach post') as Hreach by split_at_global Hb Hfn.
      clear -Hreach. induction post' as [|x post' IH]; simpl in *; [done|].
      destruct (Express.fn x); [by apply IH|done].
  - unfold RevE.app, RevE.staticLayer in Hsplit.
    destruct (RevE.isProduction h); split_at_global Hsplit Hfn.
Qed.

(** ** Not-found fallback (C8) *)

(** C8, counterexample: RevA answers an unmatched path with status 404
    and a body that has [success] and [message] only. *)
Lemma C8_RevA_lists_no_routes :
  Express.reply (Express.serve (RevA.app hostBare deps0) unknownThing (fresh ∅ clock))
  = Express.mkResponse 404 (Express.Json (Express.JObj
      [ ("success", Express.JBool false);
        ("message", Express.JStr "Route GET /api/unknown-thing not found") ]))
  /\ (forall j,
        Express.body (Express.reply
          (Express.serve (RevA.app hostBare deps0) unknownThing (fresh ∅ clock)))
        = Express.Json j ->
        Express.field "availableRoutes" j = None).
Proof.
  split; [reflexivity|].
  intros j H. vm_compute in H. injection H as <-. reflexivity.
Qed.

Lemma listsRoutes_intro req code fields routes :
  code = 404%Z ->
  Express.field "success" (Express.JObj fields) = Some (Express.JBool false) ->
  Express.field "message" (Express.JObj fields)
  = Some (Express.JStr ("Route " +:+ Express.method req +:+ " "
                        +:+ Express.url req +:+ " not found")) ->
  Express.field "availableRoutes" (Express.JObj fields) = Some (Express.JArr routes) ->
  In (Express.JStr "/health") routes ->
  listsRoutes req (Express.mkResponse code (Express.Json (Express.JObj fields))).
Proof.
  intros -> Hs Hm Ha Hin. split; [reflexivity|].
  exists (Express.JObj fields), routes. by repeat split.
Qed.

Lemma serve_falls_to (stack : list Express.layer) (nm : string)
  (t : Express.layer) (f : Express.handler) (req : Express.request) (w w' : world) :
  stack = (upTo nm stack ++ t :: after nm stack)%list ->
  Express.route t = Express.Always ->
  Express.fn t = Express.ReqFn f ->
  passThrough (upTo nm stack) req w = Some w' ->
  forall r, snd (f req w') = Express.Respond r ->
  Express.reply (Express.serve stack req w) = r.
Proof.
  intros Hsplit Hroute Hfn Hpass r Hr. unfold Express.serve. rewrite Hsplit.
  destruct (handle_passThrough _ (t :: after nm stack) req w w' [] Hpass) as [tr' ->].
  simpl. rewrite Hroute, Hfn. simpl.
  destruct (f req w') as [w'' o]. simpl in Hr. by subst o.
Qed.

(** C8, as amended: a request that falls through every layer registered
    before the not-found handler is answered with status 404 and a JSON
    body whose [success] is false; in RevB, RevC, RevD and RevE the body
    also has an [availableRoutes] array that contains "/health"; in RevA
    the body has [success] and [message] only. *)
Theorem C8_not_found (h : host) (d : deps) (req : Express.request) (w w' : world) :
  (passThrough (upTo "notFound" (RevB.app h d)) req w = Some w' ->
   listsRoutes req (Express.reply (Express.serve (RevB.app h d) req w)))
  /\ (passThrough (upTo "notFound" (RevC.app h d)) req w = Some w' ->
      listsRoutes req (Express.reply (Express.serve (RevC.app h d) req w)))
  /\ (passThrough (upTo "notFound" (RevD.app h d)) req w = Some w' ->
      listsRoutes req (Express.reply (Express.serve (RevD.app h d) req w)))
  /\ (passThrough (upTo "notFound" (RevE.app h d)) req w = Some w' ->
      listsRoutes req (Express.reply (Express.serve (RevE.app h d) req w)))
  /\ (passThrough (upTo "notFound" (RevA.app h d)) req w = Some w' ->
      Express.reply (Express.serve (RevA.app h d) req w)
      = Express.mkResponse 404 (Express.Json (Express.JObj
          [ ("success", Express.JBool false);
            ("message", Express.JStr ("Route " +:+ Express.method req +:+ " "
                                      +:+ Express.url req +:+ " not found")) ]))).
Proof.
  split; [|split; [|split; [|split]]].
  - intros Hp.
    erewrite (serve_falls_to (RevB.app h d) "notFound" _ Common.notFound);
      [|reflexivity..|exact Hp|reflexivity].
    eapply listsRoutes_intro; [reflexivity..|simpl; auto].
  - intros Hp. unfold RevC.app, RevC.staticLayer in *.
    destruct (RevC.isProduction h).
    + erewrite (serve_falls_to _ "notFound" _ Common.notFound);
        [|reflexivity..|exact Hp|reflexivity].
      eapply listsRoutes_intro; [reflexivity..|simpl; auto].
    + erewrite (serve_falls_to _ "notFound" _ Common.notFound);
        [|reflexivity..|exact Hp|reflexivity].
      eapply listsRoutes_intro; [reflexivity..|simpl; auto].
  - intros Hp.
    erewrite (serve_falls_to (RevD.app h d) "notFound" _ Common.notFound);
      [|reflexivity..|exact Hp|reflexivity].
    eapply listsRoutes_intro; [reflexivity..|simpl; auto].
  - intros Hp. unfold RevE.app, RevE.staticLayer in *.
    destruct (RevE.isProduction h).
    + erewrite (serve_falls_to _ "notFound" _ RevE.notFound);
        [|reflexivity..|exact Hp|reflexivity].
      eapply listsRoutes_intro; [reflexivity..|simpl; auto].
    + erewrite (serve_falls_to _ "notFound" _ RevE.notFound);
        [|reflexivity..|exact Hp|reflexivity].
      eapply listsRoutes_intro; [reflexivity..|simpl; auto].
  - intros Hp.
    by erewrite (serve_falls_to (RevA.app h d) "notFound" _ RevA.notFound);
      [|reflexivity..|exact Hp|reflexivity].
Qed.

Lemma C8_not_found_witness :
  listsRoutes unknownThing
    (Express.reply (Express.serve (RevB.app hostBare deps0) unknownThing (fresh ∅ clock)))
  /\ listsRoutes unknownThing
    (Express.reply (Express.serve (RevE.app hostProd deps0) unknownThing (fresh ∅ clock))).
Proof.
  split.
  - exact (proj1 (C8_not_found hostBare deps0 unknownThing (fresh ∅ clock)
                    (emit Log "GET /api/unknown-thing" (fresh ∅ clock))) eq_refl).
  - exact (proj1 (proj2 (proj2 (proj2
             (C8_not_found hostProd deps0 unknownThing (fresh ∅ clock)
                (emit Log "GET /api/unknown-thing" (fresh ∅ clock)))))) eq_refl).
Defined.

(** ** CORS policy (C10) *)

Lemma first_layer_runs (nm : string) (f : Express.handler)
  (rest : list Express.layer) (req : Express.request) (w : world) :
  exists tl,
    Express.trace
      (Express.handle (Express.mkLayer nm Express.Always (Express.ReqFn f) :: rest)
         None req w [])
    = nm :: tl.
Proof.
  rewrite (handle_call (Express.mkLayer nm Express.Always (Express.ReqFn f))
             rest f req w [] eq_refl eq_refl).
  cbn [Express.name].
  destruct (f req w) as [w' [r| |e]].
  - by exists [].
  - destruct (handle_trace_extends rest None req w' ([] ++ [nm])%list) as [tl ->].
    by exists tl.
  - destruct (handle_trace_extends rest (Some e) req w' ([] ++ [nm])%list) as [tl ->].
    by exists tl.
Qed.

(** C10: every revision installs, as the first layer of its stack, the
    cors middleware built from one and the same constant options: the
    five localhost / 127.0.0.1 origins, the five methods, the two headers
    and credentials.  Nothing of the host's configuration enters it, so
    two hosts with different configurations get the same layer, and that
    layer is the first function called for every request. *)
Theorem C10_cors_policy_constant (h1 h2 : host) (d : deps)
  (req : Express.request) (w : world) :
  let policy :=
    Express.mkCors
      [ "http://localhost:3000"; "http://localhost:5173"; "http://localhost:5174";
        "http://127.0.0.1:3000"; "http://127.0.0.1:5173" ]
      true
      ["GET"; "POST"; "PUT"; "DELETE"; "OPTIONS"]
      ["Content-Type"; "Authorization"] in
  let installed :=
    Some (Express.mkLayer "cors" Express.Always (Express.ReqFn (cors d policy))) in
  RevA.corsOptions h1 = fixedCors /\ RevA.corsOptions h2 = fixedCors
  /\ RevB.corsOptions h1 = fixedCors /\ RevB.corsOptions h2 = fixedCors
  /\ RevC.corsOptions h1 = fixedCors /\ RevC.corsOptions h2 = fixedCors
  /\ RevD.corsOptions h1 = fixedCors /\ RevD.corsOptions h2 = fixedCors
  /\ RevE.corsOptions h1 = fixedCors /\ RevE.corsOptions h2 = fixedCors
  /\ fixedCors = policy
  /\ length (Express.origin fixedCors) = 5
  /\ Express.credentials fixedCors = true
  /\ Express.methods fixedCors = ["GET"; "POST"; "PUT"; "DELETE"; "OPTIONS"]
  /\ Express.allowedHeaders fixedCors = ["Content-Type"; "Authorization"]
  /\ head (RevA.app h1 d) = head (RevA.app h2 d)
  /\ head (RevB.app h1 d) = head (RevB.app h2 d)
  /\ head (RevC.app h1 d) = head (RevC.app h2 d)
  /\ head (RevD.app h1 d) = head (RevD.app h2 d)
  /\ head (RevE.app h1 d) = head (RevE.app h2 d)
  /\ head (RevA.app h1 d) = installed
  /\ head (RevB.app h1 d) = installed
  /\ head (RevC.app h1 d) = installed
  /\ head (RevD.app h1 d) = installed
  /\ head (RevE.app h1 d) = installed
  /\ (exists tl, Express.trace (Express.serve (RevA.app h1 d) req w) = "cors" :: tl)
  /\ (exists tl, Express.trace (Express.serve (RevB.app h1 d) req w) = "cors" :: tl)
  /\ (exists tl, Express.trace (Express.serve (RevC.app h1 d) req w) = "cors" :: tl)
  /\ (exists tl, Express.trace (Express.serve (RevD.app h1 d) req w) = "cors" :: tl)
  /\ (exists tl, Express.trace (Express.serve (RevE.app h1 d) req w) = "cors" :: tl).
Proof.
  cbv zeta.
  repeat (split; [reflexivity|]).
  split; [|split; [|split; [|split]]].
  - unfold Express.serve, RevA.app. cbn [app].
    apply first_layer_runs.
  - unfold Express.serve, RevB.app. cbn [app].
    apply first_layer_runs.
  - unfold Express.serve, RevC.app. cbn [app].
    apply first_layer_runs.
  - unfold Express.serve, RevD.app. cbn [app].
    apply first_layer_runs.
  - unfold Express.serve, RevE.app. cbn [app].
    apply first_layer_runs.
Qed.

(** ** Connection reuse across calls *)

Lemma RevA_connected_returns h w :
  isConnected w = true -> RevA.connectToDatabase h w = Settled (Ret tt w).
Proof. intros H. unfold RevA.connectToDatabase. by rewrite H. Qed.

Lemma RevA_sequentially_connected db h n : forall w,
  isConnected w = true ->
  sequentially db (RevA.connectToDatabase h) n w = (w, repeat (Fulfilled tt) n).
Proof.
  induction n as [|n IH]; intros w Hc; simpl; [done|].
  rewrite RevA_connected_returns by done. simpl. by rewrite IH.
Qed.

(** However many awaited calls follow one another, a database that
    accepts is connected to once: the first call sets the flag, every
    later call returns without touching mongoose, whatever the
    configuration says by then. *)
Theorem RevA_sequential_calls_connect_once (h h2 : host)
  (db : option string -> option error) (n : nat) (w : world) :
  isConnected w = false ->
  JS.truthy (env h !! "MONGO_URI") = true ->
  db (env h !! "MONGO_URI") = None ->
  let r := sequentially db (RevA.connectToDatabase h) (S n) w in
  connects (fst r) = (connects w ++ [env h !! "MONGO_URI"])%list
  /\ snd r = repeat (Fulfilled tt) (S n)
  /\ isConnected (fst r) = true
  /\ RevA.connectToDatabase h2 (fst r) = Settled (Ret tt (fst r)).
Proof.
  intros Hc Hu Hdb r.
  assert (Hr : r = (emit Log "MongoDB Connected"
                      (set_isConnected true
                         (Mongoose.settled None
                            (Mongoose.connectCalled (env h !! "MONGO_URI") w))),
                    repeat (Fulfilled tt) (S n))).
  { subst r. cbn [sequentially]. unfold RevA.connectToDatabase at 1.
    rewrite Hc, Hu. cbn [awaitNow]. rewrite Hdb. cbn [RevA.afterConnect].
    by rewrite RevA_sequentially_connected. }
  rewrite Hr. simpl. split; [done|]. split; [done|]. split; [done|].
  by apply RevA_connected_returns.
Qed.

Lemma RevA_sequential_calls_connect_once_witness :
  let r := sequentially (fun _ => None) (RevA.connectToDatabase hostDb) 3 (fresh ∅ "") in
  connects (fst r) = [Some "mongodb://db.example/gym"]
  /\ RevA.connectToDatabase hostBare (fst r) = Settled (Ret tt (fst r)).
Proof.
  pose proof (RevA_sequential_calls_connect_once hostDb hostBare (fun _ => None) 2
                (fresh ∅ "") eq_refl eq_refl eq_refl) as (H1 & _ & _ & H4).
  exact (conj H1 H4).
Defined.

Lemma RevA_await_rejected h db e w :
  isConnected w = false ->
  JS.truthy (env h !! "MONGO_URI") = true ->
  db (env h !! "MONGO_URI") = Some e ->
  awaitNow db (RevA.connectToDatabase h w) =
    Throw e (emit Err ("MongoDB Connection Error: " +:+ message e)
               (Mongoose.settled (Some e)
                  (Mongoose.connectCalled (env h !! "MONGO_URI") w))).
Proof.
  intros Hc Hu Hdb. unfold RevA.connectToDatabase. rewrite Hc, Hu.
  cbn [awaitNow]. by rewrite Hdb.
Qed.

(** A failed attempt is not remembered: while the database refuses, each
    awaited call makes its own attempt and is rejected with the error of
    that attempt, and the flag stays unset. *)
Theorem RevA_failure_is_retried (h : host) (db : option string -> option error)
  (e : error) (n : nat) (w : world) :
  isConnected w = false ->
  JS.truthy (env h !! "MONGO_URI") = true ->
  db (env h !! "MONGO_URI") = Some e ->
  let r := sequentially db (RevA.connectToDatabase h) n w in
  connects (fst r) = (connects w ++ repeat (env h !! "MONGO_URI") n)%list
  /\ snd r = repeat (Rejected e) n
  /\ isConnected (fst r) = false.
Proof.
  intros Hc Hu Hdb. cbv zeta. revert w Hc.
  induction n as [|n IH]; intros w Hc.
  - simpl. by rewrite app_nil_r.
  - cbn [sequentially]. rewrite (RevA_await_rejected h db e w Hc Hu Hdb).
    match goal with |- context [sequentially db _ n ?v] =>
      destruct (IH v) as (H1 & H2 & H3); [done|];
      destruct (sequentially db (RevA.connectToDatabase h) n v) as [w'' vs] end.
    simpl in *. split; [|split]; [|by rewrite H2|done].
    rewrite H1. by rewrite <- app_assoc.
Qed.

Lemma RevA_failure_is_retried_witness :
  let r := sequentially (fun _ => Some refused) (RevA.connectToDatabase hostDb) 2
             (fresh ∅ "") in
  connects (fst r) = [Some "mongodb://db.example/gym"; Some "mongodb://db.example/gym"]
  /\ snd r = [Rejected refused; Rejected refused].
Proof.
  pose proof (RevA_failure_is_retried hostDb (fun _ => Some refused) refused 2
                (fresh ∅ "") eq_refl eq_refl eq_refl) as (H1 & H2 & _).
  exact (conj H1 H2).
Defined.


(** ** RevD across awaited calls, and the two gates *)

Lemma RevD_sequentially_open db h n : forall w,
  readyState w <> 0%Z ->
  let r := sequentially db (RevD.connectDatabase h) n w in
  connects (fst r) = connects w
  /\ snd r = repeat (Fulfilled tt) n
  /\ readyState (fst r) = readyState w.
Proof.
  induction n as [|n IH]; intros w Hr; cbv zeta; [done|].
  cbn [sequentially].
  assert (H : RevD.connectDatabase h w =
              Settled (Ret tt (emit Log "MongoDB already connected" w))).
  { unfold RevD.connectDatabase.
    destruct (Z.eqb_spec (readyState w) 0); [done|reflexivity]. }
  rewrite H. cbn [awaitNow].
  destruct (IH (emit Log "MongoDB already connected" w) Hr) as (H1 & H2 & H3).
  destruct (sequentially db (RevD.connectDatabase h) n _) as [w'' vs].
  simpl in *. by rewrite H1, H2, H3.
Qed.

Lemma RevD_await h db w :
  readyState w = 0%Z ->
  awaitNow db (RevD.connectDatabase h w) =
    RevD.afterConnect (db (env h !! "MONGO_URI"))
      (Mongoose.settled (db (env h !! "MONGO_URI"))
         (Mongoose.connectCalled (env h !! "MONGO_URI") w)).
Proof. intros Hr. unfold RevD.connectDatabase. by rewrite Hr. Qed.

(** RevD across awaited calls: once an attempt has succeeded the state is
    1 and no later call touches mongoose; while the database refuses, the
    state falls back to 0 and every call makes a new attempt. *)
Theorem RevD_sequential_calls (h : host) (db : option string -> option error)
  (n : nat) (w : world) :
  readyState w = 0%Z ->
  (db (env h !! "MONGO_URI") = None ->
   let r := sequentially db (RevD.connectDatabase h) (S n) w in
   connects (fst r) = (connects w ++ [env h !! "MONGO_URI"])%list
   /\ snd r = repeat (Fulfilled tt) (S n)
   /\ readyState (fst r) = Mongoose.connected)
  /\ (forall e, db (env h !! "MONGO_URI") = Some e ->
      let r := sequentially db (RevD.connectDatabase h) n w in
      connects (fst r) = (connects w ++ repeat (env h !! "MONGO_URI") n)%list
      /\ snd r = repeat (Rejected e) n
      /\ readyState (fst r) = Mongoose.disconnected).
Proof.
  intros Hr. split.
  - intros Hdb. cbv zeta. cbn [sequentially].
    rewrite RevD_await by done. rewrite Hdb. cbn [RevD.afterConnect].
    match goal with |- context [sequentially db _ n ?v] =>
      destruct (RevD_sequentially_open db h n v) as (H1 & H2 & H3); [done|];
      destruct (sequentially db (RevD.connectDatabase h) n v) as [w'' vs] end.
    simpl in *. by rewrite H1, H2, H3.
  - intros e Hdb. cbv zeta. revert w Hr. induction n as [|n IH]; intros w Hr.
    + simpl. by rewrite app_nil_r.
    + cbn [sequentially]. rewrite RevD_await by done. rewrite Hdb.
      cbn [RevD.afterConnect].
      match goal with |- context [sequentially db _ n ?v] =>
        destruct (IH v) as (H1 & H2 & H3); [done|];
        destruct (sequentially db (RevD.connectDatabase h) n v) as [w'' vs] end.
      simpl in *. split; [|split]; [|by rewrite H2|done].
      rewrite H1. by rewrite <- app_assoc.
Qed.

Lemma RevD_sequential_calls_witness :
  let r := sequentially (fun _ => None) (RevD.connectDatabase hostDb) 3 (fresh ∅ "") in
  connects (fst r) = [Some "mongodb://db.example/gym"]
  /\ snd r = [Fulfilled tt; Fulfilled tt; Fulfilled tt].
Proof.
  pose proof (proj1 (RevD_sequential_calls hostDb (fun _ => None) 2 (fresh ∅ "") eq_refl)
                eq_refl) as (H1 & H2 & _).
  exact (conj H1 H2).
Defined.

(** A readiness gate that handles its request with no other request in
    flight (its await is not interleaved with another call) never raises:
    it either calls [next()], and then the flag is set (RevA) or the state
    is not 0 (RevD), or it answers 500 { success: false, message:
    'Database connection failed' }, and then the flag is unset or the
    state is 0. *)
Theorem gates_pass_or_answer_500 (h : host) (d : deps)
  (req : Express.request) (w : world) :
  ((snd (RevA.dbGate h d req w) = Express.Next
    /\ isConnected (fst (RevA.dbGate h d req w)) = true)
   \/ (snd (RevA.dbGate h d req w) = Express.Respond Common.gateFailure
       /\ isConnected (fst (RevA.dbGate h d req w)) = false))
  /\ ((snd (RevD.dbGate h d req w) = Express.Next
       /\ readyState (fst (RevD.dbGate h d req w)) <> 0%Z)
      \/ (snd (RevD.dbGate h d req w) = Express.Respond Common.gateFailure
          /\ readyState (fst (RevD.dbGate h d req w)) = 0%Z)).
Proof.
  split.
  - unfold RevA.dbGate, RevA.connectToDatabase.
    destruct (isConnected w) eqn:Hc; [by left|].
    destruct (JS.truthy _); [|by right].
    cbn [awaitNow]. destruct (mongo d _); cbn [RevA.afterConnect]; [by right|by left].
  - unfold RevD.dbGate, RevD.connectDatabase.
    destruct (Z.eqb_spec (readyState w) 0) as [Hr|Hr]; cbn [negb].
    + cbn [awaitNow]. destruct (mongo d _); cbn [RevD.afterConnect]; [by right|by left].
    + by left.
Qed.

(** ** Normalised paths *)

Lemma split_components p : Forall (fun s => Path.split s = [s]) (Path.split p).
Proof.
  induction p as [|c p IH]; simpl; [by repeat constructor|].
  destruct (Ascii.eqb c Path.slash) eqn:Hc; [by constructor|].
  pose proof (split_nonempty p) as Hne.
  destruct (Path.split p) as [|s ss]; [done|].
  inversion IH as [|? ? Hs Hss]; subst. constructor; [|done].
  simpl. by rewrite Hc, Hs.
Qed.

Lemma clean_not_dotdot s : clean s -> String.eqb s ".." = false.
Proof. intros [_ H]. by destruct (plain_inv s H). Qed.

Lemma normSegs_clean l : forall acc,
  Forall clean acc ->
  Forall (fun s => Path.split s = [s]) l ->
  Forall clean (Path.normSegs false acc l).
Proof.
  induction l as [|s l IH]; intros acc Hacc Hl; simpl.
  - by apply Forall_rev.
  - inversion Hl as [|? ? Hs Hrest]; subst.
    destruct (String.eqb s "" || String.eqb s ".") eqn:E1; [by apply IH|].
    destruct (String.eqb s "..") eqn:E2.
    + destruct acc as [|top acc']; [by apply IH|].
      inversion Hacc as [|? ? Htop Hacc']; subst.
      rewrite (clean_not_dotdot top Htop). by apply IH.
    + apply IH; [|done]. constructor; [|done]. split; [done|].
      unfold Path.plain. apply orb_false_elim in E1 as [-> ->]. by rewrite E2.
Qed.

Lemma normSegs_of_clean allow l : forall acc,
  Forall clean l -> Path.normSegs allow acc l = (rev acc ++ l)%list.
Proof.
  induction l as [|s l IH]; intros acc Hl; simpl.
  - by rewrite app_nil_r.
  - inversion Hl as [|? ? [_ Hs] Hrest]; subst.
    destruct (plain_inv s Hs) as [-> ->].
    rewrite IH by done. simpl. by rewrite <- app_assoc.
Qed.

Lemma split_joinWith segs :
  segs <> [] ->
  Forall (fun s => Path.split s = [s]) segs ->
  Path.split (Path.joinWith segs) = segs.
Proof.
  induction segs as [|s segs IH]; intros Hne Hall; [done|].
  inversion Hall as [|? ? Hs Hrest]; subst.
  destruct segs as [|t segs]; [exact Hs|].
  change (Path.joinWith (s :: t :: segs))
    with (s +:+ "/" +:+ Path.joinWith (t :: segs)).
  rewrite split_append_slash, Hs, IH by done. reflexivity.
Qed.

(** Rendering clean components and reading them back is the identity. *)
Lemma segments_render segs :
  Forall clean segs -> Path.segments (Path.render true segs) = segs.
Proof.
  intros Hall. unfold Path.segments, Path.render.
  change (Path.isAbsolute ("/" +:+ Path.joinWith segs)) with true.
  change (Path.split ("/" +:+ Path.joinWith segs))
    with ("" :: Path.split (Path.joinWith segs)).
  destruct segs as [|s segs]; [reflexivity|].
  rewrite split_joinWith; [|done|].
  - change (Path.normSegs (negb true) [] ("" :: s :: segs))
      with (Path.normSegs false [] (s :: segs)).
    by rewrite normSegs_of_clean.
  - eapply Forall_impl; [exact Hall|]. by intros ? [].
Qed.

Lemma prefixes_last abs segs : forall acc,
  segs <> [] -> Path.render abs (acc ++ segs) ∈ Path.prefixes abs acc segs.
Proof.
  induction segs as [|s segs IH]; intros acc Hne; [done|]. simpl.
  destruct segs as [|t segs].
  - apply list_elem_of_singleton. reflexivity.
  - apply elem_of_cons. right.
    replace (acc ++ s :: t :: segs)%list with ((acc ++ [s]) ++ t :: segs)%list
      by (by rewrite <- app_assoc).
    by apply IH.
Qed.

Lemma segments_clean a :
  Path.isAbsolute a = true -> Forall clean (Path.segments a).
Proof.
  intros Ha. unfold Path.segments. rewrite Ha. simpl.
  apply normSegs_clean; [constructor|apply split_components].
Qed.

Lemma isAbsolute_nonempty a : Path.isAbsolute a = true -> a <> "".
Proof. by destruct a. Qed.

(** A directory made by joining a simple name to an absolute directory is
    among the directories [mkdir -p] creates for it. *)
Lemma join_created a x :
  Path.isAbsolute a = true -> clean x ->
  Path.join a x ∈ Path.ancestors (Path.join a x).
Proof.
  intros Ha [Hx1 Hx2].
  rewrite (join_child a x (isAbsolute_nonempty a Ha) Hx1 Hx2), Ha.
  unfold Path.ancestors.
  assert (Hc : Forall clean (Path.segments a ++ [x])).
  { apply Forall_app. split; [by apply segments_clean|]. by repeat constructor. }
  rewrite (segments_render _ Hc). simpl Path.isAbsolute.
  apply (prefixes_last true _ []). by destruct (Path.segments a).
Qed.

Lemma join_absolute a x :
  Path.isAbsolute a = true -> clean x -> Path.isAbsolute (Path.join a x) = true.
Proof.
  intros Ha [Hx1 Hx2].
  by rewrite (join_child a x (isAbsolute_nonempty a Ha) Hx1 Hx2), Ha.
Qed.

Lemma requiredDirs_clean : Forall clean requiredDirs.
Proof. by repeat constructor. Qed.

(** ** The storage root and the areas, continued *)

(** On a host whose application and temporary directories are absolute,
    every storage root a revision computes is absolute, and so is every
    area directory it creates. *)
Theorem storage_paths_absolute (h : host) (dir : string) :
  Path.isAbsolute (dirname h) = true ->
  Path.isAbsolute (tmpdir h) = true ->
  In dir requiredDirs ->
  Path.isAbsolute (RevB.uploadBase h) = true
  /\ Path.isAbsolute (RevB.dirPath h dir) = true
  /\ Path.isAbsolute (RevB.staticUploadsPath h) = true
  /\ Path.isAbsolute (RevC.uploadsDir h) = true
  /\ Path.isAbsolute (Path.join (RevC.baseDir h) dir) = true
  /\ Path.isAbsolute (RevE.uploadsDir h) = true
  /\ Path.isAbsolute (Path.join (RevE.baseDir h) dir) = true.
Proof.
  intros Hd Ht Hin.
  assert (Hdir : clean dir).
  { pose proof requiredDirs_clean as H. rewrite Forall_forall in H.
    by apply H, list_elem_of_In. }
  assert (Hup : clean "uploads") by done.
  assert (Hb : Path.isAbsolute (RevB.uploadBase h) = true).
  { unfold RevB.uploadBase. destruct (JS.truthy _); [apply resolve_absolute|].
    destruct (RevB.isServerless h); by apply join_absolute. }
  split; [exact Hb|].
  split; [unfold RevB.dirPath; destruct (RevB.isServerless h); by apply join_absolute|].
  split; [unfold RevB.staticUploadsPath; destruct (RevB.isServerless h);
          by apply join_absolute|].
  split; [unfold RevC.uploadsDir; destruct (RevC.isProduction h);
          [done|by apply join_absolute]|].
  split; [unfold RevC.baseDir; destruct (RevC.isProduction h); by apply join_absolute|].
  split; [unfold RevE.uploadsDir; destruct (RevE.isProduction h);
          [done|by apply join_absolute]|].
  unfold RevE.baseDir; destruct (RevE.isProduction h); by apply join_absolute.
Qed.

Lemma storage_paths_absolute_witness :
  Path.isAbsolute (RevB.uploadBase hostLocal) = true
  /\ Path.isAbsolute (RevB.dirPath hostLocal "logs") = true.
Proof.
  pose proof (storage_paths_absolute hostLocal "logs" eq_refl eq_refl
                ltac:(simpl; auto)) as (H1 & H2 & _).
  exact (conj H1 H2).
Defined.

(** ** Running the directory set-up again *)

Lemma present_created_old p q w : q ∈ present w -> q ∈ present (Fs.created p w).
Proof. intros H. simpl. apply elem_of_union. by left. Qed.

Lemma present_created_new p w : p ∈ Path.ancestors p -> p ∈ present (Fs.created p w).
Proof.
  intros H. simpl. apply elem_of_union. right. by apply elem_of_list_to_set.
Qed.

Lemma createIn_all_present base deny dirs : forall w,
  Forall (fun d => Path.join base d ∈ present w) dirs ->
  forEach dirs (createIn base deny) w = Ret tt w.
Proof.
  induction dirs as [|d dirs IH]; intros w Hall; simpl; [done|].
  inversion Hall as [|? ? Hd Hrest]; subst. unfold bind.
  rewrite createIn_cases, bool_decide_eq_true_2 by done. by apply IH.
Qed.

Lemma createIn_first_run base deny dirs :
  Path.isAbsolute base = true ->
  Forall clean dirs ->
  Forall (fun d => deny (Path.join base d) = None) dirs ->
  forall w, exists w1,
    forEach dirs (createIn base deny) w = Ret tt w1
    /\ (forall q, q ∈ present w -> q ∈ present w1)
    /\ Forall (fun d => Path.join base d ∈ present w1) dirs.
Proof.
  intros Hb. induction dirs as [|d dirs IH]; intros Hc Hd w.
  - exists w. by repeat split.
  - inversion Hc as [|? ? Hcd Hcr]; inversion Hd as [|? ? Hdd Hdr]; subst.
    cbn [forEach]. unfold bind. rewrite createIn_cases, Hdd.
    destruct (bool_decide (Path.join base d ∈ present w)) eqn:E.
    + apply bool_decide_eq_true_1 in E.
      destruct (IH Hcr Hdr w) as (w1 & H1 & H2 & H3).
      exists w1. split; [done|]. split; [done|]. constructor; [by apply H2|done].
    + set (v := emit Log _ _).
      destruct (IH Hcr Hdr v) as (w1 & H1 & H2 & H3).
      exists w1. split; [done|].
      split; [intros q Hq; by apply H2, present_created_old|].
      constructor; [|done].
      apply H2. apply present_created_new. by apply join_created.
Qed.

(** [createDirectories] run a second time changes nothing: on a host
    with an absolute application directory that refuses none of the three
    areas, after one run every area exists and another run returns with
    the world untouched, no [mkdirSync] call and no console line. *)
Theorem createDirectories_idempotent (h : host) (deny : Fs.refusal) (w : world) :
  Path.isAbsolute (dirname h) = true ->
  (forall dir, In dir requiredDirs ->
     deny (Path.join (RevC.baseDir h) dir) = None
     /\ deny (Path.join (RevE.baseDir h) dir) = None) ->
  (let w1 := world_of (RevC.createDirectories h deny w) in
   RevC.createDirectories h deny w = Ret tt w1
   /\ Forall (fun d => Path.join (RevC.baseDir h) d ∈ present w1) requiredDirs
   /\ RevC.createDirectories h deny w1 = Ret tt w1)
  /\ (let w1 := world_of (RevE.createDirectories h deny w) in
      RevE.createDirectories h deny w = Ret tt w1
      /\ Forall (fun d => Path.join (RevE.baseDir h) d ∈ present w1) requiredDirs
      /\ RevE.createDirectories h deny w1 = Ret tt w1).
Proof.
  intros Hd Hdeny.
  assert (HnoC : Forall (fun d => deny (Path.join (RevC.baseDir h) d) = None) requiredDirs).
  { apply Forall_forall. intros d Hin. by apply Hdeny, list_elem_of_In. }
  assert (HnoE : Forall (fun d => deny (Path.join (RevE.baseDir h) d) = None) requiredDirs).
  { apply Forall_forall. intros d Hin. by apply Hdeny, list_elem_of_In. }
  destruct (createDirectories_shape h deny) as [-> ->]. split.
  - assert (Hb : Path.isAbsolute (RevC.baseDir h) = true)
      by (unfold RevC.baseDir; by destruct (RevC.isProduction h)).
    destruct (createIn_first_run _ deny requiredDirs Hb requiredDirs_clean HnoC w)
      as (w1 & H1 & _ & H3).
    unfold try_catch. rewrite H1. cbn [world_of].
    split; [done|]. split; [done|]. by rewrite createIn_all_present.
  - assert (Hb : Path.isAbsolute (RevE.baseDir h) = true)
      by (unfold RevE.baseDir; by destruct (RevE.isProduction h)).
    destruct (createIn_first_run _ deny requiredDirs Hb requiredDirs_clean HnoE w)
      as (w1 & H1 & _ & H3).
    unfold try_catch. rewrite H1. cbn [world_of].
    split; [done|]. split; [done|]. by rewrite createIn_all_present.
Qed.

Lemma createDirectories_idempotent_witness :
  let w1 := world_of (RevE.createDirectories hostProd (fun _ => None) (fresh ∅ "")) in
  mkdirs w1 = ["/tmp/uploads"; "/tmp/whatsapp-auth"; "/tmp/logs"]
  /\ RevE.createDirectories hostProd (fun _ => None) w1 = Ret tt w1.
Proof.
  split; [reflexivity|].
  exact (proj2 (proj2 (proj2
    (createDirectories_idempotent hostProd (fun _ => None) (fresh ∅ "")
       eq_refl (fun _ _ => conj eq_refl eq_refl))))).
Defined.

Lemma RevB_dirPath_join h dir : RevB.dirPath h dir = Path.join (areaBase h) dir.
Proof. unfold RevB.dirPath, areaBase. by destruct (RevB.isServerless h). Qed.

Lemma areaBase_absolute h :
  Path.isAbsolute (dirname h) = true ->
  Path.isAbsolute (tmpdir h) = true ->
  Path.isAbsolute (areaBase h) = true.
Proof.
  intros Hd Ht. unfold areaBase, RevB.uploadBase.
  destruct (RevB.isServerless h) eqn:Hs; [|done].
  destruct (JS.truthy _); [apply resolve_absolute|]. by apply join_absolute.
Qed.

Lemma RevB_first_run h deny dirs :
  Path.isAbsolute (areaBase h) = true ->
  Forall clean dirs ->
  Forall (fun d => deny (RevB.dirPath h d) = None) dirs ->
  forall w, exists w1,
    forEach dirs (RevB.ensureDir h deny) w = Ret tt w1
    /\ (forall q, q ∈ present w -> q ∈ present w1)
    /\ Forall (fun d => RevB.dirPath h d ∈ present w1) dirs.
Proof.
  intros Hb. induction dirs as [|d dirs IH]; intros Hc Hd w.
  - exists w. by repeat split.
  - inversion Hc as [|? ? Hcd Hcr]; inversion Hd as [|? ? Hdd Hdr]; subst.
    cbn [forEach]. unfold bind. rewrite RevB_ensureDir_cases. cbv zeta. rewrite Hdd.
    destruct (bool_decide (RevB.dirPath h d ∈ present w)) eqn:E.
    + apply bool_decide_eq_true_1 in E. set (v := emit Log _ w).
      destruct (IH Hcr Hdr v) as (w1 & H1 & H2 & H3).
      exists w1. split; [done|]. split; [intros q Hq; by apply H2|].
      constructor; [by apply H2|done].
    + set (v := emit Log _ _).
      destruct (IH Hcr Hdr v) as (w1 & H1 & H2 & H3).
      exists w1. split; [done|].
      split; [intros q Hq; by apply H2, present_created_old|].
      constructor; [|done].
      apply H2. apply present_created_new.
      rewrite RevB_dirPath_join. by apply join_created.
Qed.

Lemma RevB_all_present h deny dirs : forall w,
  Forall (fun d => RevB.dirPath h d ∈ present w) dirs ->
  forEach dirs (RevB.ensureDir h deny) w =
    Ret tt (fold_left (fun v d => emit Log ("Directory exists: " +:+ RevB.dirPath h d) v)
              dirs w).
Proof.
  induction dirs as [|d dirs IH]; intros w Hall; simpl; [done|].
  inversion Hall as [|? ? Hd Hrest]; subst. unfold bind.
  rewrite RevB_ensureDir_cases. cbv zeta. rewrite bool_decide_eq_true_2 by done.
  by apply IH.
Qed.

(** The guarded set-up of RevB run a second time creates nothing: on a
    host with absolute application and temporary directories that refuses
    none of the three areas, after one run every area exists, and another
    run makes no [mkdirSync] call and only logs "Directory exists" for
    each area, in order. *)
Theorem RevB_ensureDirs_idempotent (h : host) (deny : Fs.refusal) (w : world) :
  Path.isAbsolute (dirname h) = true ->
  Path.isAbsolute (tmpdir h) = true ->
  (forall dir, In dir requiredDirs -> deny (RevB.dirPath h dir) = None) ->
  let w1 := world_of (RevB.ensureDirs h deny w) in
  RevB.ensureDirs h deny w = Ret tt w1
  /\ Forall (fun d => RevB.dirPath h d ∈ present w1) requiredDirs
  /\ RevB.ensureDirs h deny w1 =
       Ret tt (emit Log ("Directory exists: " +:+ RevB.dirPath h "logs")
                (emit Log ("Directory exists: " +:+ RevB.dirPath h "whatsapp-auth")
                   (emit Log ("Directory exists: " +:+ RevB.dirPath h "uploads") w1)))
  /\ mkdirs (world_of (RevB.ensureDirs h deny w1)) = mkdirs w1
  /\ present (world_of (RevB.ensureDirs h deny w1)) = present w1.
Proof.
  intros Hd Ht Hdeny w1.
  assert (Hno : Forall (fun d => deny (RevB.dirPath h d) = None) requiredDirs).
  { apply Forall_forall. intros d Hin. by apply Hdeny, list_elem_of_In. }
  destruct (RevB_first_run h deny requiredDirs (areaBase_absolute h Hd Ht)
              requiredDirs_clean Hno w) as (v & H1 & _ & H3).
  unfold RevB.ensureDirs in *. subst w1. rewrite H1. cbn [world_of].
  split; [done|]. split; [done|].
  rewrite (RevB_all_present h deny requiredDirs v H3).
  by repeat split.
Qed.

Lemma RevB_ensureDirs_idempotent_witness :
  let w1 := world_of (RevB.ensureDirs hostVercel (fun _ => None) (fresh ∅ "")) in
  mkdirs w1 = ["/tmp/gym_uploads/uploads"; "/tmp/gym_uploads/whatsapp-auth";
               "/tmp/gym_uploads/logs"]
  /\ mkdirs (world_of (RevB.ensureDirs hostVercel (fun _ => None) w1)) = mkdirs w1.
Proof.
  split; [reflexivity|].
  exact (proj1 (proj2 (proj2 (proj2
    (RevB_ensureDirs_idempotent hostVercel (fun _ => None) (fresh ∅ "")
       eq_refl eq_refl (fun _ _ => eq_refl)))))).
Defined.

(** ** Which configuration reaches which path *)

Lemma RevB_ensureDir_ext h1 h2 deny dir w :
  RevB.dirPath h1 dir = RevB.dirPath h2 dir ->
  RevB.ensureDir h1 deny dir w = RevB.ensureDir h2 deny dir w.
Proof. intros H. rewrite !RevB_ensureDir_cases. cbv zeta. by rewrite H. Qed.

Lemma RevB_isServerless_setenv v h :
  RevB.isServerless (setenv "UPLOAD_DIR" v h) = RevB.isServerless h.
Proof. unfold RevB.isServerless, setenv; simpl. by rewrite lookup_insert_ne. Qed.

(** In RevB the UPLOAD_DIR override moves the storage areas only when
    VERCEL is set: without VERCEL the areas are created, and the uploads
    served, under the application directory whatever the override says,
    while with VERCEL they follow a non-empty override. *)
Theorem RevB_override_moves_areas_only_when_serverless (h : host) (v dir : string) :
  (RevB.isServerless h = false ->
   RevB.dirPath (setenv "UPLOAD_DIR" v h) dir = Path.join (dirname h) dir
   /\ RevB.staticUploadsPath (setenv "UPLOAD_DIR" v h) = Path.join (dirname h) "uploads"
   /\ (forall deny w,
         RevB.ensureDirs (setenv "UPLOAD_DIR" v h) deny w = RevB.ensureDirs h deny w))
  /\ (RevB.isServerless h = true -> v <> "" ->
      RevB.dirPath (setenv "UPLOAD_DIR" v h) dir
      = Path.join (Path.resolve (cwd h) v) dir
      /\ RevB.staticUploadsPath (setenv "UPLOAD_DIR" v h)
         = Path.join (Path.resolve (cwd h) v) "uploads").
Proof.
  split.
  - intros Hs.
    assert (Hp : forall d, RevB.dirPath (setenv "UPLOAD_DIR" v h) d
                           = Path.join (dirname h) d).
    { intros d. unfold RevB.dirPath. by rewrite RevB_isServerless_setenv, Hs. }
    split; [apply Hp|].
    split; [unfold RevB.staticUploadsPath; by rewrite RevB_isServerless_setenv, Hs|].
    intros deny w.
    assert (Hq : forall d, RevB.dirPath (setenv "UPLOAD_DIR" v h) d = RevB.dirPath h d).
    { intros d. rewrite Hp. unfold RevB.dirPath. by rewrite Hs. }
    unfold RevB.ensureDirs. generalize requiredDirs as dirs. intros dirs. revert w.
    induction dirs as [|d dirs IH]; intros w; [done|].
    cbn [forEach]. unfold bind. rewrite (RevB_ensureDir_ext _ h deny d w (Hq d)).
    destruct (RevB.ensureDir h deny d w); [apply IH|done].
  - intros Hs Hv.
    assert (Hb : RevB.uploadBase (setenv "UPLOAD_DIR" v h) = Path.resolve (cwd h) v).
    { unfold RevB.uploadBase, RevB.uploadBaseEnv, setenv. simpl.
      rewrite lookup_insert_eq. simpl.
      destruct (String.eqb_spec v ""); [done|reflexivity]. }
    unfold RevB.dirPath, RevB.staticUploadsPath.
    by rewrite RevB_isServerless_setenv, Hs, Hb.
Qed.

Lemma RevB_override_moves_areas_only_when_serverless_witness :
  RevB.dirPath (setenv "UPLOAD_DIR" "/data" hostBare) "logs" = "/srv/app/logs"
  /\ RevB.uploadBase (setenv "UPLOAD_DIR" "/data" hostBare) = "/data"
  /\ RevB.dirPath (setenv "UPLOAD_DIR" "/data" hostVercel) "logs" = "/data/logs".
Proof.
  split; [|split; [reflexivity|]].
  - exact (proj1 (proj1 (RevB_override_moves_areas_only_when_serverless
                           hostBare "/data" "logs") eq_refl)).
  - exact (proj1 (proj2 (RevB_override_moves_areas_only_when_serverless
                           hostVercel "/data" "logs") eq_refl ltac:(discriminate))).
Defined.

(** The three tests for an ephemeral host are nested: whatever RevE or
    RevB counts as production or serverless, RevC does too; RevE alone
    requires VERCEL to be exactly "1" or "true", so with VERCEL set to
    another value RevC stores under /tmp and RevE under the application
    directory. *)
Theorem production_tests_nested (h : host) :
  (RevE.isProduction h = true -> RevC.isProduction h = true)
  /\ (RevB.isServerless h = true -> RevC.isProduction h = true)
  /\ (RevC.isProduction h = true -> RevE.isProduction h = false ->
      JS.truthy (env h !! "VERCEL") = true
      /\ RevC.uploadsDir h = "/tmp/uploads"
      /\ RevE.uploadsDir h = Path.join (dirname h) "uploads").
Proof.
  unfold RevE.isProduction, RevC.isProduction, RevB.isServerless,
    RevC.uploadsDir, RevE.uploadsDir, RevC.isProduction, RevE.isProduction.
  unfold JS.strict_eq, JS.truthy.
  destruct (env h !! "NODE_ENV") as [n|]; destruct (env h !! "VERCEL") as [v|];
    try destruct (String.eqb_spec n "production");
    try destruct (String.eqb_spec v "1");
    try destruct (String.eqb_spec v "true");
    try destruct (String.eqb_spec v ""); subst; simpl; repeat split; try done.
Qed.

Lemma production_tests_nested_witness :
  RevC.isProduction hostProd = true
  /\ RevC.uploadsDir hostVercelYes = "/tmp/uploads"
  /\ RevE.uploadsDir hostVercelYes = "/var/task/uploads".
Proof.
  split.
  - exact (proj1 (production_tests_nested hostProd) eq_refl).
  - pose proof (proj2 (proj2 (production_tests_nested hostVercelYes)) eq_refl eq_refl)
      as (_ & H2 & H3).
    exact (conj H2 H3).
Defined.

(** ** Start-up *)

Lemma createDirectories_return h deny w :
  (exists v, RevC.createDirectories h deny w = Ret tt v /\ connects v = connects w)
  /\ (exists v, RevE.createDirectories h deny w = Ret tt v /\ connects v = connects w).
Proof.
  assert (Hgen : forall base dirs v,
            connects (world_of (forEach dirs (createIn base deny) v)) = connects v).
  { intros base dirs. induction dirs as [|d dirs IH]; intros v; [done|].
    cbn [forEach]. unfold bind. rewrite createIn_cases.
    destruct (bool_decide _); [apply IH|].
    destruct (deny _); [done|]. by rewrite IH. }
  destruct (createDirectories_shape h deny) as [-> ->].
  split.
  - specialize (Hgen (RevC.baseDir h) requiredDirs w). unfold try_catch, tell.
    destruct (forEach _ _ w) as [[] v|e v]; simpl in Hgen; by eexists.
  - specialize (Hgen (RevE.baseDir h) requiredDirs w). unfold try_catch, tell.
    destruct (forEach _ _ w) as [[] v|e v]; simpl in Hgen; by eexists.
Qed.

Lemma ensureDirs_return h deny w :
  exists v, RevB.ensureDirs h deny w = Ret tt v /\ connects v = connects w.
Proof.
  unfold RevB.ensureDirs. generalize requiredDirs as dirs. intros dirs. revert w.
  induction dirs as [|d dirs IH]; intros w; [by exists w|].
  cbn [forEach]. unfold bind. rewrite RevB_ensureDir_cases. cbv zeta.
  destruct (bool_decide _).
  - destruct (IH (emit Log ("Directory exists: " +:+ RevB.dirPath h d) w))
      as (v & Hv & Hc). by exists v.
  - destruct (deny _) as [msg|].
    + match goal with |- context [forEach dirs _ ?u] =>
        destruct (IH u) as (v & Hv & Hc) end. by exists v.
    + match goal with |- context [forEach dirs _ ?u] =>
        destruct (IH u) as (v & Hv & Hc) end. by exists v.
Qed.

(** RevB at load: whatever the file system refuses, the database is
    tried once, at MONGO_URI or the built-in local URI; the process then
    has [app.listen] return for PORT (default 5000) if the attempt
    succeeded and [app.listen] accepts the port, and ends with exit code 1
    if the attempt failed or [app.listen] threw, also when VERCEL is
    set. *)
Theorem RevB_load_listens_or_exits (h : host) (deny : Fs.refusal)
  (listen : Startup.refusedPort) (db : option string -> option error) (w : world) :
  let uri := Some (JS.or_default (env h !! "MONGO_URI") Common.defaultUri) in
  let port := JS.or_default (env h !! "PORT") "5000" in
  landed (awaitNow db (Startup.onLoadB h deny listen w))
    (match db uri, listen port with
     | None, None => Startup.Listening port
     | _, _ => Startup.Exited 1
     end)
    (connects w ++ [uri]).
Proof.
  cbv zeta. unfold Startup.onLoadB, afterSync, bind, tell.
  match goal with |- context [RevB.ensureDirs h deny ?u] =>
    destruct (ensureDirs_return h deny u) as (v & -> & Hc) end.
  unfold Startup.registering, bind, tell.
  unfold Startup.startServerB, RevB.connectDatabase, Common.connectDatabaseWithDefault,
    mapAsync, awaitNow, Startup.port.
  destruct (db _) as [e|]; cbn [Common.afterConnect].
  - eexists. split; [reflexivity|]. simpl. by rewrite Hc.
  - destruct (listen _) as [e|].
    + eexists. split; [reflexivity|]. simpl. by rewrite Hc.
    + unfold Startup.announce, bind, tell.
      destruct (RevB.isServerless h); unfold ret;
        (eexists; split; [reflexivity|]; simpl; by rewrite Hc).
Qed.

(** A port that Node refuses: the connection succeeds, [app.listen]
    throws inside the try, and the process exits with code 1. *)
Example RevB_bad_port_exits :
  exists v,
    awaitNow (fun _ => None) (Startup.onLoadB hostBadPort (fun _ => None) portCheck
                                (fresh ∅ ""))
    = Ret (Startup.Exited 1) v.
Proof. by eexists. Qed.

(** RevC and RevE at load: in production the process neither listens nor
    exits, whatever the database answers; otherwise [app.listen] returns
    for PORT (default 5000) after a successful attempt if it accepts the
    port, and the process exits with code 1 after a failed attempt or a
    throwing [app.listen].  Either way exactly one attempt is made, at
    MONGO_URI or the built-in local URI.  RevA and RevD connect to nothing
    at load. *)
Theorem load_by_mode (h : host) (deny : Fs.refusal)
  (listen : Startup.refusedPort) (db : option string -> option error) (w : world) :
  let uri := Some (JS.or_default (env h !! "MONGO_URI") Common.defaultUri) in
  let port := JS.or_default (env h !! "PORT") "5000" in
  landed (awaitNow db (Startup.onLoadC h deny listen w))
    (if RevC.isProduction h then Startup.Idle
     else match db uri, listen port with
          | None, None => Startup.Listening port
          | _, _ => Startup.Exited 1
          end)
    (connects w ++ [uri])
  /\ landed (awaitNow db (Startup.onLoadE h deny listen w))
       (if RevE.isProduction h then Startup.Idle
        else match db uri, listen port with
             | None, None => Startup.Listening port
             | _, _ => Startup.Exited 1
             end)
       (connects w ++ [uri])
  /\ landed (awaitNow db (Startup.onLoadA w)) Startup.Idle (connects w)
  /\ landed (awaitNow db (Startup.onLoadD w)) Startup.Idle (connects w).
Proof.
  cbv zeta.
  destruct (createDirectories_return h deny w) as [(vc & Hvc & Hcc) (ve & Hve & Hce)].
  split; [|split; [|split]].
  - unfold Startup.onLoadC, afterSync, bind. rewrite Hvc.
    unfold Startup.registering, bind, tell.
    destruct (RevC.isProduction h) eqn:Hp; cbn [negb].
    + unfold Startup.connectAndLog, RevC.connectDatabase,
        Common.connectDatabaseWithDefault, mapAsync, awaitNow.
      destruct (db _); cbn [Common.afterConnect];
        (eexists; split; [reflexivity|]; simpl; by rewrite Hcc).
    + unfold Startup.startServerC, RevC.connectDatabase,
        Common.connectDatabaseWithDefault, mapAsync, awaitNow, Startup.port.
      rewrite Hp.
      destruct (db _); cbn [Common.afterConnect negb];
        [|destruct (listen _)];
        (eexists; split; [reflexivity|]; simpl; by rewrite Hcc).
  - unfold Startup.onLoadE, afterSync, bind. rewrite Hve. unfold tell.
    destruct (RevE.isProduction h) eqn:Hp; cbn [negb].
    + unfold Startup.connectAndLog, RevE.connectDatabase,
        Common.connectDatabaseWithDefault, mapAsync, awaitNow.
      destruct (db _); cbn [Common.afterConnect];
        (eexists; split; [reflexivity|]; simpl; by rewrite Hce).
    + unfold Startup.startServerE, RevE.connectDatabase,
        Common.connectDatabaseWithDefault, mapAsync, awaitNow, Startup.port.
      rewrite Hp.
      destruct (db _); cbn [Common.afterConnect negb];
        [|destruct (listen _)];
        (eexists; split; [reflexivity|]; simpl; by rewrite Hce).
  - by eexists.
  - by eexists.
Qed.

(** The same refused port in RevE: exit outside production, nothing in
    production. *)
Example RevE_bad_port_by_mode :
  (exists v,
     awaitNow (fun _ => None) (Startup.onLoadE hostBadPort (fun _ => None) portCheck
                                 (fresh ∅ ""))
     = Ret (Startup.Exited 1) v)
  /\ (exists v,
        awaitNow (fun _ => None)
          (Startup.onLoadE (setenv "NODE_ENV" "production" hostBadPort)
             (fun _ => None) portCheck (fresh ∅ ""))
        = Ret Startup.Idle v).
Proof. split; by eexists. Qed.

(** ** Requests that fall through the first layers *)

Lemma falls_through pre post req :
  Forall (passOrSkip req) pre ->
  forall w tr, exists w',
    Express.handle (pre ++ post) None req w tr
    = Express.handle post None req w' (tr ++ called pre req).
Proof.
  induction pre as [|l pre IH]; intros Hall w tr.
  - exists w. simpl. by rewrite app_nil_r.
  - inversion Hall as [|? ? Hl Hrest]; subst. simpl.
    destruct Hl as [Hskip|(f & Hfn & Hpass)].
    + rewrite Hskip. by apply IH.
    + destruct (Express.matches _ req); [|by apply IH].
      rewrite Hfn. specialize (Hpass w). destruct (f req w) as [w1 o].
      simpl in Hpass. subst o.
      destruct (IH Hrest w1 (tr ++ [Express.name l])%list) as [w' ->].
      exists w'. by rewrite <- app_assoc.
Qed.

Lemma logger_passes req : passes Common.logger req.
Proof. by intros w. Qed.

Lemma exactly_inv p path :
  Express.exactly p path = true ->
  Express.lower path = p \/ Express.lower path = p +:+ "/".
Proof.
  unfold Express.exactly. intros H. apply orb_true_iff in H as [H|H].
  - left. by apply String.eqb_eq.
  - right. apply andb_true_iff in H as [_ H]. by apply String.eqb_eq.
Qed.

(** Decides a goal [matches m req = false] or a [passOrSkip] goal once
    the lower-cased path is known by [Hpath]. *)
Ltac no_match Hpath :=
  unfold Express.matches, Express.underPrefix, Express.exactly;
  cbn [Express.route]; rewrite ?Hpath; cbn; rewrite ?andb_false_r; reflexivity.

Ltac gets_past Hpath Hc Hj Hu :=
  first
    [ left; no_match Hpath
    | right; eexists; split; [reflexivity|];
      first [exact Hc | exact Hj | exact Hu | apply logger_passes] ].

Ltac all_get_past Hpath Hc Hj Hu :=
  repeat (apply List.Forall_cons; [gets_past Hpath Hc Hj Hu|]); apply List.Forall_nil.

(** ** The health route *)

Lemma health_reached (stack : list Express.layer) (f : Express.handler)
  (req : Express.request) (w : world) (j : world -> Express.json) :
  stack = (upTo "GET /health" stack
           ++ Express.mkLayer "GET /health" (Express.Get "/health") (Express.ReqFn f)
           :: after "GET /health" stack)%list ->
  Forall (passOrSkip req) (upTo "GET /health" stack) ->
  called (upTo "GET /health" stack) req
  = ["cors"; "express.json"; "express.urlencoded"; "logger"] ->
  Express.matches (Express.Get "/health") req = true ->
  (forall v, f req v = (v, Express.Respond (Express.mkResponse 200 (Express.Json (j v))))) ->
  (forall v, Express.field "status" (j v) = Some (Express.JStr "OK")
             /\ Express.field "message" (j v) = Some (Express.JStr "Server is running")
             /\ Express.field "timestamp" (j v) = Some (Express.JStr (isoNow v))) ->
  healthy (Express.serve stack req w).
Proof.
  intros Hsplit Hpast Hcalled Hm Hf Hj. unfold Express.serve. rewrite Hsplit.
  destruct (falls_through _ (Express.mkLayer "GET /health" (Express.Get "/health")
                               (Express.ReqFn f) :: after "GET /health" stack)
              req Hpast w []) as [w' ->].
  cbn [Express.handle Express.route Express.fn Express.name]. rewrite Hm, Hf, Hcalled.
  split; [reflexivity|]. split; [reflexivity|].
  exists (j w'). split; [reflexivity|]. apply Hj.
Qed.

(** GET /health is answered without the database in every revision: once
    cors and the body parsers have handed the request on, only the logger
    and the health route run, no route module and no readiness gate, and
    the answer is 200 with status "OK" and the current time. *)
Theorem health_answers_in_every_revision (h : host) (d : deps)
  (req : Express.request) (w : world) :
  preludePasses d req ->
  Express.matches (Express.Get "/health") req = true ->
  healthy (Express.serve (RevA.app h d) req w)
  /\ healthy (Express.serve (RevB.app h d) req w)
  /\ healthy (Express.serve (RevC.app h d) req w)
  /\ healthy (Express.serve (RevD.app h d) req w)
  /\ healthy (Express.serve (RevE.app h d) req w).
Proof.
  intros (Hc & Hj & Hu) Hm.
  assert (Hm' := Hm). unfold Express.matches in Hm'.
  apply andb_true_iff in Hm' as [Hmeth Hex].
  split; [|split; [|split; [|split]]].
  - destruct (exactly_inv _ _ Hex) as [Hp|Hp];
      (eapply (health_reached (RevA.app h d) _ req w
                 (fun v => Express.JObj [ ("status", Express.JStr "OK");
                                          ("message", Express.JStr "Server is running");
                                          ("timestamp", Express.JStr (isoNow v)) ]));
       [ reflexivity
       | cbn; all_get_past Hp Hc Hj Hu
       | cbn; unfold Express.underPrefix, Express.exactly; rewrite ?Hp; cbn;
         rewrite ?andb_false_r; reflexivity
       | exact Hm
       | reflexivity
       | by intros v ]).
  - destruct (exactly_inv _ _ Hex) as [Hp|Hp];
      (eapply (health_reached (RevB.app h d) _ req w
                 (fun v => Express.JObj [ ("status", Express.JStr "OK");
                                          ("message", Express.JStr "Server is running");
                                          ("timestamp", Express.JStr (isoNow v));
                                          ("env", _); ("routes", _) ]));
       [ reflexivity
       | cbn; all_get_past Hp Hc Hj Hu
       | cbn; unfold Express.underPrefix, Express.exactly; rewrite ?Hp; cbn;
         rewrite ?andb_false_r; reflexivity
       | exact Hm
       | reflexivity
       | by intros v ]).
  - unfold RevC.app, RevC.staticLayer.
    destruct (RevC.isProduction h) eqn:Hprod;
      (destruct (exactly_inv _ _ Hex) as [Hp|Hp];
       (eapply (health_reached _ (RevC.health h) req w
                  (fun v => Express.JObj [ ("status", Express.JStr "OK");
                                           ("message", Express.JStr "Server is running");
                                           ("timestamp", Express.JStr (isoNow v));
                                           ("environment", _); ("uploadsDir", _);
                                           ("routes", _) ]));
        [ reflexivity
        | cbn; all_get_past Hp Hc Hj Hu
        | cbn; unfold Express.underPrefix, Express.exactly; rewrite ?Hp; cbn;
          rewrite ?andb_false_r; reflexivity
        | exact Hm
        | reflexivity
        | by intros v ])).
  - destruct (exactly_inv _ _ Hex) as [Hp|Hp];
      (eapply (health_reached (RevD.app h d) _ req w
                 (fun v => Express.JObj [ ("status", Express.JStr "OK");
                                          ("message", Express.JStr "Server is running");
                                          ("timestamp", Express.JStr (isoNow v));
                                          ("routes", _) ]));
       [ reflexivity
       | cbn; all_get_past Hp Hc Hj Hu
       | cbn; unfold Express.underPrefix, Express.exactly; rewrite ?Hp; cbn;
         rewrite ?andb_false_r; reflexivity
       | exact Hm
       | reflexivity
       | by intros v ]).
  - unfold RevE.app, RevE.staticLayer.
    destruct (RevE.isProduction h) eqn:Hprod;
      (destruct (exactly_inv _ _ Hex) as [Hp|Hp];
       (eapply (health_reached _ (RevE.health h) req w
                  (fun v => Express.JObj [ ("status", Express.JStr "OK");
                                           ("message", Express.JStr "Server is running");
                                           ("timestamp", Express.JStr (isoNow v));
                                           ("environment", _); ("uploadsDir", _);
                                           ("routes", _) ]));
        [ reflexivity
        | cbn; all_get_past Hp Hc Hj Hu
        | cbn; unfold Express.underPrefix, Express.exactly; rewrite ?Hp; cbn;
          rewrite ?andb_false_r; reflexivity
        | exact Hm
        | reflexivity
        | by intros v ])).
Qed.

Lemma health_answers_in_every_revision_witness :
  healthy (Express.serve (RevA.app hostBare deps0) healthReq (fresh ∅ clock))
  /\ healthy (Express.serve (RevD.app hostBare deps1)
                (Express.mkRequest "HEAD" "/Health/?probe=1") (fresh ∅ clock)).
Proof.
  split.
  - exact (proj1 (health_answers_in_every_revision hostBare deps0 healthReq
                    (fresh ∅ clock)
                    (conj (fun _ => eq_refl) (conj (fun _ => eq_refl) (fun _ => eq_refl)))
                    eq_refl)).
  - exact (proj1 (proj2 (proj2 (proj2
             (health_answers_in_every_revision hostBare deps1
                (Express.mkRequest "HEAD" "/Health/?probe=1") (fresh ∅ clock)
                (conj (fun _ => eq_refl) (conj (fun _ => eq_refl) (fun _ => eq_refl)))
                eq_refl))))).
Defined.

(** ** Which requests reach a route module *)

(** The route modules see exactly the requests under /api: the table has
    a matching mount if and only if the path is /api or lies below it, and
    the first matching mount is then one of the four canonical mounts or
    the first legacy mount, the customer routes; the legacy mounts of the
    attendance and report routes are never the first to match. *)
Theorem route_table_covers_api (d : deps) (req : Express.request) :
  match Express.firstMatch (Common.routeTable d) req with
  | None => Express.matches (Express.Use "/api") req = false
  | Some i =>
      Express.matches (Express.Use "/api") req = true
      /\ (i <= 4)%nat
      /\ (i = 4%nat <->
          Express.matches (Express.Use "/api/whatsapp") req = false
          /\ Express.matches (Express.Use "/api/customers") req = false
          /\ Express.matches (Express.Use "/api/attendance") req = false
          /\ Express.matches (Express.Use "/api/reports") req = false)
  end.
Proof.
  unfold Common.routeTable, Common.canonicalMounts, Common.legacyMounts.
  cbn [app Express.firstMatch Express.route Express.matches].
  set (p := Express.pathname (Express.url req)).
  pose proof (under_longer_prefix "whatsapp" p) as H1.
  pose proof (under_longer_prefix "customers" p) as H2.
  pose proof (under_longer_prefix "attendance" p) as H3.
  pose proof (under_longer_prefix "reports" p) as H4.
  change ("/api" +:+ String Path.slash "whatsapp") with "/api/whatsapp" in H1.
  change ("/api" +:+ String Path.slash "customers") with "/api/customers" in H2.
  change ("/api" +:+ String Path.slash "attendance") with "/api/attendance" in H3.
  change ("/api" +:+ String Path.slash "reports") with "/api/reports" in H4.
  destruct (Express.underPrefix "/api/whatsapp" p) eqn:E1.
  { simpl. split; [by apply H1|]. split; [lia|]. split; [lia|]. by intros []. }
  destruct (Express.underPrefix "/api/customers" p) eqn:E2.
  { simpl. split; [by apply H2|]. split; [lia|]. split; [lia|]. by intros (_ & ? & _). }
  destruct (Express.underPrefix "/api/attendance" p) eqn:E3.
  { simpl. split; [by apply H3|]. split; [lia|]. split; [lia|].
    by intros (_ & _ & ? & _). }
  destruct (Express.underPrefix "/api/reports" p) eqn:E4.
  { simpl. split; [by apply H4|]. split; [lia|]. split; [lia|].
    by intros (_ & _ & _ & ?). }
  destruct (Express.underPrefix "/api" p) eqn:E5; simpl; [|done].
  by repeat split.
Qed.

(** ** Errors of any status *)

Lemma raised_error_reaches_global (h : host) (d : deps)
  (stack pre post : list Express.layer) (l : Express.layer) (f : Express.handler)
  (req : Express.request) (w w' : world) (e : error) :
  stack = RevB.app h d \/ stack = RevC.app h d
  \/ stack = RevD.app h d \/ stack = RevE.app h d ->
  stack = (pre ++ l :: post)%list ->
  Express.fn l = Express.ReqFn f ->
  f req w = (w', Express.Raise e) ->
  errorsReach post.
Proof.
  intros Hstack Hsplit Hfn Hf.
  destruct Hstack as [-> | [-> | [-> | ->]]].
  - split_at_global Hsplit Hfn.
  - unfold RevC.app, RevC.staticLayer in Hsplit.
    destruct (RevC.isProduction h); split_at_global Hsplit Hfn.
  - change (RevD.app h d) with
      ((upTo "dbGate" (RevD.app h d))
       ++ [Express.mkLayer "dbGate" Express.Always (Express.ReqFn (RevD.dbGate h d))])%list
      in Hsplit.
    destruct (split_before_last _ _ _ _ _ Hsplit) as [(_ & -> & _)|(post' & -> & Hb)].
    + simpl in Hfn. injection Hfn as <-. by apply RevD_gate_never_raises in Hf.
    + assert (errorsReach post') as Hreach by split_at_global Hb Hfn.
      clear -Hreach. induction post' as [|x post' IH]; simpl in *; [done|].
      destruct (Express.fn x); [by apply IH|done].
  - unfold RevE.app, RevE.staticLayer in Hsplit.
    destruct (RevE.isProduction h); split_at_global Hsplit Hfn.
Qed.

(** In RevB to RevE an error raised by any layer is answered by the
    global handler, which runs right after the raising layer.  For an
    error whose [status] is missing or zero the answer has status 500;
    for one whose [status] is a code from 200 to 999 that carries a body
    (not 204, not 304) the answer has that status as it is, an error code
    or not.  The body is { success: false, message, timestamp }, with
    'Internal server error' in place of an empty message. *)
Theorem raised_errors_are_normalised (h : host) (d : deps)
  (stack pre post : list Express.layer) (l : Express.layer) (f : Express.handler)
  (req : Express.request) (w w' : world) (e : error) (tr : list string) :
  stack = RevB.app h d \/ stack = RevC.app h d
  \/ stack = RevD.app h d \/ stack = RevE.app h d ->
  stack = (pre ++ l :: post)%list ->
  Express.fn l = Express.ReqFn f ->
  Express.matches (Express.route l) req = true ->
  f req w = (w', Express.Raise e) ->
  status e = None \/ status e = Some 0%Z
  \/ (exists s, status e = Some s
                /\ (200 <= s <= 999)%Z /\ s <> 204%Z /\ s <> 304%Z) ->
  Express.handle (l :: post) None req w tr =
    Express.mkResult (emit Err ("Global error: " +:+ message e) w')
      (tr ++ [Express.name l; "globalError"])%list
      (Express.mkResponse
         (match status e with
          | Some s => if (s =? 0)%Z then 500%Z else s
          | None => 500%Z
          end)
         (Express.Json (Express.JObj
            [ ("success", Express.JBool false);
              ("message", Express.JStr (if String.eqb (message e) ""
                                        then "Internal server error" else message e));
              ("timestamp", Express.JStr (isoNow w')) ]))).
Proof.
  intros Hstack Hsplit Hfn Hm Hf _.
  rewrite (raise_is_normalised l post f req w w' e tr Hfn Hm Hf
             (raised_error_reaches_global h d stack pre post l f req w w' e
                Hstack Hsplit Hfn Hf)).
  by rewrite <- app_assoc.
Qed.

Lemma raised_errors_are_normalised_witness :
  Express.reply
    (Express.handle
       (Express.mkLayer "/api/reports reportRoutes" (Express.Use "/api/reports")
          (Express.ReqFn (reportRoutes depsTeapot))
        :: after "/api/reports reportRoutes" (RevD.app hostDb depsTeapot))
       None (Express.mkRequest "GET" "/api/reports/monthly") (fresh ∅ clock) [])
  = Express.mkResponse 200 (Express.Json (Express.JObj
      [ ("success", Express.JBool false);
        ("message", Express.JStr "Internal server error");
        ("timestamp", Express.JStr clock) ])).
Proof.
  refine (f_equal Express.reply
            (raised_errors_are_normalised hostDb depsTeapot
               (RevD.app hostDb depsTeapot)
               (upTo "/api/reports reportRoutes" (RevD.app hostDb depsTeapot))
               (after "/api/reports reportRoutes" (RevD.app hostDb depsTeapot))
               _ _ (Express.mkRequest "GET" "/api/reports/monthly")
               (fresh ∅ clock) (fresh ∅ clock) teapot []
               (or_intror (or_intror (or_introl eq_refl)))
               eq_refl eq_refl eq_refl eq_refl _)).
  right. right. exists 200%Z. repeat split; lia.
Defined.

(** ** Uploads *)

Lemma static_first (pre rest : list Express.layer) (root : string) (d : deps)
  (req : Express.request) (w : world) (r : Express.response) :
  Forall (passOrSkip req) pre ->
  called pre req = ["cors"; "express.json"; "express.urlencoded"] ->
  Express.matches (Express.Use "/uploads") req = true ->
  (forall v, snd (serveStatic d root req v) = Express.Respond r) ->
  let res := Express.serve
               (pre ++ Express.mkLayer "static /uploads" (Express.Use "/uploads")
                         (Express.ReqFn (serveStatic d root)) :: rest) req w in
  Express.reply res = r
  /\ Express.trace res
     = ["cors"; "express.json"; "express.urlencoded"; "static /uploads"].
Proof.
  intros Hpast Hcalled Hm Hs res. subst res. unfold Express.serve.
  destruct (falls_through pre
              (Express.mkLayer "static /uploads" (Express.Use "/uploads")
                 (Express.ReqFn (serveStatic d root)) :: rest) req Hpast w [])
    as [w' ->].
  cbn [Express.handle Express.route Express.fn Express.name]. rewrite Hm, Hcalled.
  specialize (Hs w'). destruct (serveStatic d root req w') as [v o].
  simpl in Hs. subst o. by split.
Qed.

(** A request under /uploads that the static middleware answers is never
    logged: in RevB and RevD, and in RevC and RevE outside production, the
    static mount is registered before the request logger, so only cors,
    the body parsers and the static middleware run. *)
Theorem static_hits_bypass_logger (h : host) (d : deps)
  (req : Express.request) (w : world) (r : Express.response) :
  preludePasses d req ->
  Express.matches (Express.Use "/uploads") req = true ->
  (forall root v, snd (serveStatic d root req v) = Express.Respond r) ->
  (Express.reply (Express.serve (RevB.app h d) req w) = r
   /\ Express.trace (Express.serve (RevB.app h d) req w)
      = ["cors"; "express.json"; "express.urlencoded"; "static /uploads"])
  /\ (Express.reply (Express.serve (RevD.app h d) req w) = r
      /\ Express.trace (Express.serve (RevD.app h d) req w)
         = ["cors"; "express.json"; "express.urlencoded"; "static /uploads"])
  /\ (RevC.isProduction h = false ->
      Express.reply (Express.serve (RevC.app h d) req w) = r
      /\ Express.trace (Express.serve (RevC.app h d) req w)
         = ["cors"; "express.json"; "express.urlencoded"; "static /uploads"])
  /\ (RevE.isProduction h = false ->
      Express.reply (Express.serve (RevE.app h d) req w) = r
      /\ Express.trace (Express.serve (RevE.app h d) req w)
         = ["cors"; "express.json"; "express.urlencoded"; "static /uploads"]).
Proof.
  intros (Hc & Hj & Hu) Hm Hs.
  assert (Hpre : forall opts,
            cors d opts = cors d fixedCors ->
            Forall (passOrSkip req)
              [ Express.mkLayer "cors" Express.Always (Express.ReqFn (cors d opts));
                Express.mkLayer "express.json" Express.Always (Express.ReqFn (jsonParser d));
                Express.mkLayer "express.urlencoded" Express.Always
                  (Express.ReqFn (urlencodedParser d)) ]).
  { intros opts Ho. repeat (apply List.Forall_cons; [right; eexists; split;
      [reflexivity|]; first [by rewrite Ho|done]|]). apply List.Forall_nil. }
  split; [|split; [|split]].
  - apply (static_first [_; _; _] _ (RevB.staticUploadsPath h) d req w r
             (Hpre _ eq_refl) eq_refl Hm (Hs _)).
  - apply (static_first [_; _; _] _ (Path.join (dirname h) "uploads") d req w r
             (Hpre _ eq_refl) eq_refl Hm (Hs _)).
  - intros Hp. unfold RevC.app, RevC.staticLayer. rewrite Hp.
    apply (static_first [_; _; _] _ (Path.join (dirname h) "uploads") d req w r
             (Hpre _ eq_refl) eq_refl Hm (Hs _)).
  - intros Hp. unfold RevE.app, RevE.staticLayer. rewrite Hp.
    apply (static_first [_; _; _] _ (Path.join (dirname h) "uploads") d req w r
             (Hpre _ eq_refl) eq_refl Hm (Hs _)).
Qed.

Lemma static_hits_bypass_logger_witness :
  Express.trace (Express.serve (RevB.app hostBare depsStatic) uploadReq (fresh ∅ clock))
  = ["cors"; "express.json"; "express.urlencoded"; "static /uploads"].
Proof.
  exact (proj2 (proj1 (static_hits_bypass_logger hostBare depsStatic uploadReq
                         (fresh ∅ clock) customerOk
                         (conj (fun _ => eq_refl)
                               (conj (fun _ => eq_refl) (fun _ => eq_refl)))
                         eq_refl (fun _ _ => eq_refl)))).
Defined.

Lemma notFound_reached (stack : list Express.layer) (f : Express.handler)
  (req : Express.request) (w : world) (names : list string)
  (r : world -> Express.response) :
  stack = (upTo "notFound" stack
           ++ Express.mkLayer "notFound" Express.Always (Express.ReqFn f)
           :: after "notFound" stack)%list ->
  Forall (passOrSkip req) (upTo "notFound" stack) ->
  called (upTo "notFound" stack) req = names ->
  (forall v, snd (f req v) = Express.Respond (r v)) ->
  exists w',
    Express.reply (Express.serve stack req w) = r w'
    /\ Express.trace (Express.serve stack req w) = (names ++ ["notFound"])%list.
Proof.
  intros Hsplit Hpast Hcalled Hf. unfold Express.serve. rewrite Hsplit.
  destruct (falls_through _ (Express.mkLayer "notFound" Express.Always (Express.ReqFn f)
                               :: after "notFound" stack) req Hpast w [])
    as [w' Hw]. rewrite Hw. exists w'.
  cbn [Express.handle Express.route Express.fn Express.name Express.matches].
  rewrite Hcalled. specialize (Hf w'). destruct (f req w') as [v o].
  simpl in Hf. subst o. by split.
Qed.

(** In production RevC and RevE do not serve uploads: no static mount is
    registered, so a request under /uploads is logged and answered by the
    not-found handler with status 404 and the list of known routes,
    without the static middleware being consulted. *)
Theorem uploads_not_served_in_production (h : host) (d : deps)
  (req : Express.request) (w : world) :
  preludePasses d req ->
  Express.matches (Express.Use "/uploads") req = true ->
  (RevC.isProduction h = true ->
   listsRoutes req (Express.reply (Express.serve (RevC.app h d) req w))
   /\ Express.trace (Express.serve (RevC.app h d) req w)
      = ["cors"; "express.json"; "express.urlencoded"; "logger"; "notFound"])
  /\ (RevE.isProduction h = true ->
      listsRoutes req (Express.reply (Express.serve (RevE.app h d) req w))
      /\ Express.trace (Express.serve (RevE.app h d) req w)
         = ["cors"; "express.json"; "express.urlencoded"; "logger"; "notFound"]).
Proof.
  intros (Hc & Hj & Hu) Hm.
  destruct (underPrefix_inv _ _ Hm) as [rem Hp].
  split; intros Hprod.
  - unfold RevC.app, RevC.staticLayer. rewrite Hprod.
    match goal with |- context [Express.serve ?st req w] =>
    edestruct (notFound_reached st Common.notFound req w
                 ["cors"; "express.json"; "express.urlencoded"; "logger"]
                 (fun v => match snd (Common.notFound req v) with
                           | Express.Respond r => r
                           | _ => Common.gateFailure
                           end))
      as (w' & Hr & Ht);
      [ reflexivity
      | cbn; all_get_past Hp Hc Hj Hu
      | cbn; unfold Express.underPrefix, Express.exactly; rewrite ?Hp; cbn;
        rewrite ?andb_false_r; reflexivity
      | by intros v
      | ] end.
    split; [|exact Ht].
    rewrite Hr. cbn. eapply listsRoutes_intro; [reflexivity..|simpl; auto].
  - unfold RevE.app, RevE.staticLayer. rewrite Hprod.
    match goal with |- context [Express.serve ?st req w] =>
    edestruct (notFound_reached st RevE.notFound req w
                 ["cors"; "express.json"; "express.urlencoded"; "logger"]
                 (fun v => match snd (RevE.notFound req v) with
                           | Express.Respond r => r
                           | _ => Common.gateFailure
                           end))
      as (w' & Hr & Ht);
      [ reflexivity
      | cbn; all_get_past Hp Hc Hj Hu
      | cbn; unfold Express.underPrefix, Express.exactly; rewrite ?Hp; cbn;
        rewrite ?andb_false_r; reflexivity
      | by intros v
      | ] end.
    split; [|exact Ht].
    rewrite Hr. cbn. eapply listsRoutes_intro; [reflexivity..|simpl; auto].
Qed.

Lemma uploads_not_served_in_production_witness :
  Express.trace (Express.serve (RevE.app hostProd depsStatic) uploadReq (fresh ∅ clock))
  = ["cors"; "express.json"; "express.urlencoded"; "logger"; "notFound"].
Proof.
  exact (proj2 (proj2 (uploads_not_served_in_production hostProd depsStatic uploadReq
                         (fresh ∅ clock)
                         (conj (fun _ => eq_refl)
                               (conj (fun _ => eq_refl) (fun _ => eq_refl)))
                         eq_refl) eq_refl)).
Defined.
